(** * Deadline: calendar, countdown timer and task list of an Obsidian view

    A shallow embedding of [main.js] (the [SimpleWorkingView] class of the
    Deadline plugin) together with the parts of the JavaScript runtime
    its handlers rely on: the ECMAScript date algorithms behind [Date],
    [Math.round], [parseInt] and [String.prototype.trim].  [main.js]
    holds two revisions of the class; the definitions follow the later
    one, version 1.1.0, which keeps its page elements in
    [this.timerElements] and [this.taskElements] and counts down against
    an end time.

    Conventions.
    - A JavaScript number that the widget stores is an integer or [NaN];
      integers are modelled by [Z] (doubles are exact on integers below
      2^53, and the widget's magnitudes, millisecond timestamps and
      durations in seconds, stay far below).  Division by 1000 inside the
      tick is taken in [Q] before [Math.round] brings it back to [Z].
    - A [Date] is its time value in local time, in milliseconds; the
      offset between local time and UTC and the [TimeClip] window of
      +-8.64e15 ms are not modelled.
    - A string is its list of UTF-16 code units.
    - Handlers are state transformers on records; [Date.now()] is an
      explicit argument; [requestAnimationFrame] and [setTimeout] put
      callbacks into explicit queues of the event loop. *)

From Stdlib Require Import String Ascii.
From Stdlib Require Import ZArith List Bool Lia QArith Qround.
Import ListNotations.

Local Open Scope Z_scope.

(* ================================================================== *)
(** * ECMAScript date algorithms (ECMA-262, Time Values and Time Range) *)
(* ================================================================== *)

Module JSDate.

Definition msPerDay : Z := 86400000.

Definition Day (t : Z) : Z := t / msPerDay.
Definition TimeWithinDay (t : Z) : Z := t mod msPerDay.

Definition leapYear (y : Z) : bool :=
  if negb (y mod 4 =? 0) then false
  else if negb (y mod 100 =? 0) then true
  else if negb (y mod 400 =? 0) then false
  else true.

Definition DaysInYear (y : Z) : Z := if leapYear y then 366 else 365.

Definition DayFromYear (y : Z) : Z :=
  365 * (y - 1970) + (y - 1969) / 4 - (y - 1901) / 100 + (y - 1601) / 400.

Definition TimeFromYear (y : Z) : Z := msPerDay * DayFromYear y.

(** ECMA-262 defines [YearFromTime t] as the largest [y] with
    [TimeFromYear y <= t].  The computation below estimates the year
    from the mean length of a Gregorian year and corrects the estimate by
    at most one; [YearFromDay_spec] shows it meets the definition. *)
Definition YearFromDay (d : Z) : Z :=
  let y0 := 1970 + (400 * d) / 146097 in
  if d <? DayFromYear y0 then y0 - 1
  else if DayFromYear (y0 + 1) <=? d then y0 + 1
  else y0.

Definition YearFromTime (t : Z) : Z := YearFromDay (Day t).

Definition InLeapYear (t : Z) : Z :=
  if leapYear (YearFromTime t) then 1 else 0.

Definition DayWithinYear (t : Z) : Z := Day t - DayFromYear (YearFromTime t).

Definition MonthFromTime (t : Z) : Z :=
  let d := DayWithinYear t in
  let l := InLeapYear t in
  if d <? 31 then 0
  else if d <? 59 + l then 1
  else if d <? 90 + l then 2
  else if d <? 120 + l then 3
  else if d <? 151 + l then 4
  else if d <? 181 + l then 5
  else if d <? 212 + l then 6
  else if d <? 243 + l then 7
  else if d <? 273 + l then 8
  else if d <? 304 + l then 9
  else if d <? 334 + l then 10
  else 11.

Definition DateFromTime (t : Z) : Z :=
  let d := DayWithinYear t in
  let l := InLeapYear t in
  match MonthFromTime t with
  | 0 => d + 1
  | 1 => d - 30
  | 2 => d - 58 - l
  | 3 => d - 89 - l
  | 4 => d - 119 - l
  | 5 => d - 150 - l
  | 6 => d - 180 - l
  | 7 => d - 211 - l
  | 8 => d - 242 - l
  | 9 => d - 272 - l
  | 10 => d - 303 - l
  | _ => d - 333 - l
  end.

Definition WeekDay (t : Z) : Z := (Day t + 4) mod 7.

(** Number of days of the year before month [mn] (0-based) begins. *)
Definition monthStart (leap : bool) (mn : Z) : Z :=
  let l := if leap then 1 else 0 in
  match mn with
  | 0 => 0
  | 1 => 31
  | 2 => 59 + l
  | 3 => 90 + l
  | 4 => 120 + l
  | 5 => 151 + l
  | 6 => 181 + l
  | 7 => 212 + l
  | 8 => 243 + l
  | 9 => 273 + l
  | 10 => 304 + l
  | _ => 334 + l
  end.

(** [MakeDay year month date]: the day number of the first of the month
    [(ym, mn)], moved by [date - 1] days. *)
Definition MakeDay (year month date : Z) : Z :=
  let ym := year + month / 12 in
  let mn := month mod 12 in
  DayFromYear ym + monthStart (leapYear ym) mn + date - 1.

Definition MakeDate (day time : Z) : Z := day * msPerDay + time.

(** A [Date] object: its time value, read in local time. *)
Record Date := mkDate { tv : Z }.

(** [new Date(year, month, date)]: a year from 0 to 99 stands for
    1900 + year; the time of day is midnight. *)
Definition resolvedYear (year : Z) : Z :=
  if (0 <=? year) && (year <=? 99) then 1900 + year else year.

Definition newDate (year month date : Z) : Date :=
  let yr := resolvedYear year in
  mkDate (MakeDate (MakeDay yr month date) 0).

Definition getFullYear (d : Date) : Z := YearFromTime (tv d).
Definition getMonth (d : Date) : Z := MonthFromTime (tv d).
Definition getDate (d : Date) : Z := DateFromTime (tv d).
Definition getDay (d : Date) : Z := WeekDay (tv d).

(** [d.setMonth(month)]: year, day of the month and time of day are kept
    and handed to [MakeDay], which carries a day past the end of the
    target month over into the following one. *)
Definition setMonth (d : Date) (month : Z) : Date :=
  let t := tv d in
  mkDate (MakeDate (MakeDay (YearFromTime t) month (DateFromTime t))
                   (TimeWithinDay t)).

(** Length of month [mn] (0-based) of a common or leap year. *)
Definition daysInMonth (leap : bool) (mn : Z) : Z :=
  match mn with
  | 1 => if leap then 29 else 28
  | 3 | 5 | 8 | 10 => 30
  | _ => 31
  end.

End JSDate.


(* ================================================================== *)
(** * JavaScript numbers and strings, as far as the widget uses them    *)
(* ================================================================== *)

Module JSNum.

(** The value of a numeric field: an integer or [NaN]. *)
Inductive num :=
| Int (z : Z)
| NaN.

Definition add (a b : num) : num :=
  match a, b with
  | Int x, Int y => Int (x + y)
  | _, _ => NaN
  end.

Definition sub (a b : num) : num :=
  match a, b with
  | Int x, Int y => Int (x - y)
  | _, _ => NaN
  end.

Definition mul (a b : num) : num :=
  match a, b with
  | Int x, Int y => Int (x * y)
  | _, _ => NaN
  end.

(** [a <= b]: false as soon as one side is [NaN]. *)
Definition le (a b : num) : bool :=
  match a, b with
  | Int x, Int y => x <=? y
  | _, _ => false
  end.

(** [a !== b]: [NaN] differs from everything, itself included. *)
Definition strictNeq (a b : num) : bool :=
  match a, b with
  | Int x, Int y => negb (x =? y)
  | _, _ => true
  end.

(** [Math.round]: the nearest integer, a tie going upwards. *)
Definition Math_round (q : Q) : Z := Qfloor (q + (1 # 2)).

(** [Math.round(a / d)] for a positive integer constant [d]. *)
Definition roundDiv (a : num) (d : positive) : num :=
  match a with
  | Int x => Int (Math_round (x # d))
  | NaN => NaN
  end.

Definition Math_max (a b : num) : num :=
  match a, b with
  | Int x, Int y => Int (Z.max x y)
  | _, _ => NaN
  end.

(** A nullable number in arithmetic position: [null] counts as 0. *)
Definition ofNullable (a : option num) : num :=
  match a with
  | Some x => x
  | None => Int 0
  end.

End JSNum.

Module JSString.
Import JSNum.

(** A string is its sequence of UTF-16 code units. *)
Definition jsstring := list N.

(** An ASCII literal as a JavaScript string. *)
Definition lit (s : string) : jsstring :=
  map N_of_ascii (list_ascii_of_string s).

(** WhiteSpace and LineTerminator code points of ECMA-262: what
    [trim] strips and [parseInt] skips. *)
Definition isWhiteSpace (c : N) : bool :=
  (((9 <=? c) && (c <=? 13)) || (c =? 32) || (c =? 160) || (c =? 5760) ||
   ((8192 <=? c) && (c <=? 8202)) || (c =? 8232) || (c =? 8233) ||
   (c =? 8239) || (c =? 8287) || (c =? 12288) || (c =? 65279))%N.

Fixpoint trimStart (s : jsstring) : jsstring :=
  match s with
  | c :: s' => if isWhiteSpace c then trimStart s' else s
  | [] => []
  end.

Definition trimEnd (s : jsstring) : jsstring := rev (trimStart (rev s)).

Definition trim (s : jsstring) : jsstring := trimEnd (trimStart s).

Definition isDigit (c : N) : bool := ((48 <=? c) && (c <=? 57))%N.

(** The longest prefix of decimal digits, as digit values. *)
Fixpoint digitPrefix (s : jsstring) : list Z :=
  match s with
  | c :: s' => if isDigit c then (Z.of_N c - 48) :: digitPrefix s' else []
  | [] => []
  end.

Definition digitsValue (ds : list Z) : Z :=
  fold_left (fun acc d => 10 * acc + d) ds 0.

(** [parseInt(s, 10)]: leading white space is skipped, one sign is
    read, then the longest run of decimal digits; no digit gives [NaN]. *)
Definition parseInt (s : jsstring) : num :=
  let s1 := trimStart s in
  let (sign, s2) :=
    match s1 with
    | 45%N :: r => (-1, r)
    | 43%N :: r => (1, r)
    | _ => (1, s1)
    end in
  match digitPrefix s2 with
  | [] => NaN
  | ds => Int (sign * digitsValue ds)
  end.

End JSString.

(* ================================================================== *)
(** * Calendar: [renderCalendar] and month navigation                   *)
(* ================================================================== *)

Module Calendar.
Import JSDate.

(** One child of [.calendar-grid] after the seven weekday headers
    (Mon .. Sun): an empty filler, or a day with the [Date] its
    [data-date] attribute is formatted from and its "today" mark. *)
Inductive Cell :=
| Empty
| DayCell (day : Z) (date : Date) (isToday : bool).

Record Grid := mkGrid {
  shownYear : Z;
  shownMonth : Z;
  cells : list Cell
}.

Definition isDateToday (today date : Date) : bool :=
  (getDate date =? getDate today) &&
  (getMonth date =? getMonth today) &&
  (getFullYear date =? getFullYear today).

(** [startDay] of [renderCalendar]: Monday = 0, Sunday = 6. *)
Definition mondayFirst (startDay : Z) : Z :=
  if startDay =? 0 then 6 else startDay - 1.

(** The days [1 .. n] visited by [for (day = 1; day <= n; day++)]. *)
Definition dayRange (n : Z) : list Z :=
  map Z.of_nat (seq 1 (Z.to_nat n)).

(** Body of [renderCalendar] once [year] and [month] are read from the
    cursor; [today] is the [new Date()] that [isDateToday] takes. *)
Definition monthGrid (today : Date) (year month : Z) : Grid :=
  let firstDay := newDate year month 1 in
  let lastDay := newDate year (month + 1) 0 in
  let daysInMonth := getDate lastDay in
  let startDay := mondayFirst (getDay firstDay) in
  let blanks := repeat Empty (Z.to_nat startDay) in
  let days :=
    map (fun day =>
           let date := newDate year month day in
           DayCell day date (isDateToday today date))
        (dayRange daysInMonth) in
  mkGrid year month (blanks ++ days).

Definition renderCalendar (today currentDate : Date) : Grid :=
  monthGrid today (getFullYear currentDate) (getMonth currentDate).

(** Click handlers of the [.prev-month] and [.next-month] buttons; the
    re-rendering that follows reads the cursor they leave. *)
Definition prevMonthClick (currentDate : Date) : Date :=
  setMonth currentDate (getMonth currentDate - 1).

Definition nextMonthClick (currentDate : Date) : Date :=
  setMonth currentDate (getMonth currentDate + 1).

(** [navigate(delta)] of the spec: the two handlers under one name;
    there is no button for another [delta]. *)
Definition navigate (delta : Z) (currentDate : Date) : Date :=
  if delta =? 1 then nextMonthClick currentDate
  else if delta =? -1 then prevMonthClick currentDate
  else currentDate.

(** The cursor as the spec sees it. *)
Definition cursor (currentDate : Date) : Z * Z :=
  (getFullYear currentDate, getMonth currentDate).

(** Number of [Empty] cells the grid starts with. *)
Fixpoint leadingBlanks (cs : list Cell) : Z :=
  match cs with
  | Empty :: cs' => 1 + leadingBlanks cs'
  | _ => 0
  end.

(** Column (0 = Mon .. 6 = Sun) of the cell at position [i] of a
    seven-column grid. *)
Definition column (i : Z) : Z := i mod 7.

Definition cellAt (g : Grid) (i : Z) : option Cell :=
  if i <? 0 then None else nth_error (cells g) (Z.to_nat i).

End Calendar.

(* ================================================================== *)
(** * Timer                                                             *)
(* ================================================================== *)

Module Timer.
Import JSNum JSString.

(** The timer fields of the view ([this.workTime] ...). *)
Record Fields := mkFields {
  workTime : num;
  breakTime : num;
  timeLeft : num;
  isWorkSession : bool;
  timerRunning : bool;
  timerEndTime : option num;
  timerAnimationFrame : option positive
}.

(** What the timer has handed to the event loop: the animation-frame
    requests not yet run or cancelled (their callback is always [tick]),
    the due times of the pending [setTimeout(() => this.startTimer(),
    2000)] calls, and the next request id. *)
Record Loop := mkLoop {
  frames : list positive;
  timeouts : list Z;
  nextId : positive
}.

Record World := mkWorld {
  fields : Fields;
  loop : Loop
}.

(** The constructor's timer state, nothing scheduled. *)
Definition init : World :=
  mkWorld (mkFields (Int (40 * 60)) (Int (5 * 60)) (Int (40 * 60))
                    true false None None)
          (mkLoop [] [] 1).

Definition setFields (f : Fields) (w : World) : World := mkWorld f (loop w).

Definition requestAnimationFrame (l : Loop) : positive * Loop :=
  (nextId l, mkLoop (frames l ++ [nextId l]) (timeouts l) (Pos.succ (nextId l))).

Definition cancelAnimationFrame (id : positive) (l : Loop) : Loop :=
  mkLoop (filter (fun i => negb (Pos.eqb i id)) (frames l))
         (timeouts l) (nextId l).

Definition setTimeout (now delay : Z) (l : Loop) : Loop :=
  mkLoop (frames l) (timeouts l ++ [now + delay]) (nextId l).

Definition startTimer (now : Z) (w : World) : World :=
  let f := fields w in
  if timerRunning f then w
  else
    let endTime := add (Int now) (mul (timeLeft f) (Int 1000)) in
    let (id, l) := requestAnimationFrame (loop w) in
    mkWorld (mkFields (workTime f) (breakTime f) (timeLeft f)
                      (isWorkSession f) true (Some endTime) (Some id))
            l.

Definition pauseTimer (w : World) : World :=
  let f := fields w in
  if negb (timerRunning f) then w
  else
    let l := match timerAnimationFrame f with
             | Some id => cancelAnimationFrame id (loop w)
             | None => loop w
             end in
    mkWorld (mkFields (workTime f) (breakTime f) (timeLeft f)
                      (isWorkSession f) false (timerEndTime f) None)
            l.

Definition resetTimer (w : World) : World :=
  let w1 := pauseTimer w in
  let f := fields w1 in
  setFields (mkFields (workTime f) (breakTime f) (workTime f)
                      true (timerRunning f) (timerEndTime f)
                      (timerAnimationFrame f))
            w1.

(** [playBeepSound] touches the audio device only and swallows its own
    failure; it leaves no trace in the state. *)
Definition completeTimer (now : Z) (w : World) : World :=
  let w1 := pauseTimer w in
  let f := fields w1 in
  let session := negb (isWorkSession f) in
  let left := if session then workTime f else breakTime f in
  mkWorld (mkFields (workTime f) (breakTime f) left session
                    (timerRunning f) (timerEndTime f)
                    (timerAnimationFrame f))
          (setTimeout now 2000 (loop w1)).

(** The closure [tick] of [startTimer], run by the event loop for an
    animation frame; [now] is its [Date.now()]. *)
Definition tick (now : Z) (w : World) : World :=
  let f := fields w in
  if negb (timerRunning f) then w
  else
    let remainingMs := sub (ofNullable (timerEndTime f)) (Int now) in
    let remainingSec := Math_max (Int 0) (roundDiv remainingMs 1000) in
    if le remainingSec (Int 0) then completeTimer now w
    else
      let left := if strictNeq remainingSec (timeLeft f)
                  then remainingSec else timeLeft f in
      let (id, l) := requestAnimationFrame (loop w) in
      mkWorld (mkFields (workTime f) (breakTime f) left (isWorkSession f)
                        (timerRunning f) (timerEndTime f) (Some id))
              l.

Definition toggleTimer (now : Z) (w : World) : World :=
  if timerRunning (fields w) then pauseTimer w else startTimer now w.

(** [saveTimerSettings]; [workInput] and [breakInput] are the [value]s
    of the two settings fields, [None] for a field that is not in the
    page.  Rewriting the info line and closing the panel change the
    page only. *)
Definition saveTimerSettings (workInput breakInput : option jsstring)
    (w : World) : World :=
  let f := fields w in
  let work := match workInput with
              | Some v => mul (parseInt v) (Int 60)
              | None => workTime f
              end in
  let break := match breakInput with
               | Some v => mul (parseInt v) (Int 60)
               | None => breakTime f
               end in
  let left := if negb (timerRunning f)
              then (if isWorkSession f then work else break)
              else timeLeft f in
  setFields (mkFields work break left (isWorkSession f) (timerRunning f)
                      (timerEndTime f) (timerAnimationFrame f))
            w.

(** ** The event loop around the timer *)

(** What can happen to the timer: a click on Start/Pause, on Reset, on
    Save with the two fields holding [work] and [brk], the oldest
    requested animation frame running, the oldest 2-second timeout
    expiring. *)
Inductive Event :=
| ClickStartPause
| ClickReset
| ClickSave (work brk : jsstring)
| Frame
| Timeout.

(** The event loop takes the oldest frame request, or the oldest
    timeout, off its queue before it runs the callback. *)
Definition popFrame (w : World) : World :=
  mkWorld (fields w)
          (mkLoop (tl (frames (loop w))) (timeouts (loop w))
                  (nextId (loop w))).

Definition popTimeout (w : World) : World :=
  mkWorld (fields w)
          (mkLoop (frames (loop w)) (tl (timeouts (loop w)))
                  (nextId (loop w))).

(** One event at wall-clock time [now].  A [Frame] with no request
    pending, and a [Timeout] with none pending or the oldest not yet due,
    cannot happen and leave the world as it is. *)
Definition handle (now : Z) (e : Event) (w : World) : World :=
  match e with
  | ClickStartPause => toggleTimer now w
  | ClickReset => resetTimer w
  | ClickSave work brk => saveTimerSettings (Some work) (Some brk) w
  | Frame =>
      match frames (loop w) with
      | _ :: _ => tick now (popFrame w)
      | [] => w
      end
  | Timeout =>
      match timeouts (loop w) with
      | due :: _ => if due <=? now then startTimer now (popTimeout w) else w
      | [] => w
      end
  end.

(** A run: events with their times, oldest first. *)
Fixpoint run (tr : list (Z * Event)) (w : World) : World :=
  match tr with
  | (now, e) :: tr' => run tr' (handle now e w)
  | [] => w
  end.

(** The clock never goes back: times are non-decreasing from [t0] on. *)
Fixpoint chronological (t0 : Z) (tr : list (Z * Event)) : bool :=
  match tr with
  | (now, _) :: tr' => (t0 <=? now) && chronological now tr'
  | [] => true
  end.

(** The ranges the two settings fields declare ([min]/[max]). *)
Definition inRange (work brk : jsstring) : bool :=
  match parseInt work, parseInt brk with
  | Int m, Int k => (1 <=? m) && (m <=? 180) && (1 <=? k) && (k <=? 60)
  | _, _ => false
  end.



(** No click in the run: the timer is left to itself. *)
Fixpoint unattended (tr : list (Z * Event)) : bool :=
  match tr with
  | (_, (Frame | Timeout)) :: tr' => unattended tr'
  | _ :: _ => false
  | [] => true
  end.

(** How often the phase flag flips along a run. *)
Fixpoint flips (tr : list (Z * Event)) (w : World) : nat :=
  match tr with
  | (now, e) :: tr' =>
      let w' := handle now e w in
      (if Bool.eqb (isWorkSession (fields w)) (isWorkSession (fields w'))
       then 0 else 1)%nat + flips tr' w'
  | [] => 0%nat
  end.

(** ** Vocabulary of the statements about the timer *)

(** [round((endTime - now) / 1000)], clamped at 0. *)
Definition secondsLeft (endTime now : Z) : Z :=
  Z.max 0 (Math_round (inject_Z (endTime - now) / 1000)).

(** The frames that run at the times [ts], one after the other. *)
Definition framesAt (ts : list Z) : list (Z * Event) :=
  map (fun t => (t, Frame)) ts.

(** A running timer with its end time and a frame request pending. *)
Definition ticking (endTime : Z) (w : World) : Prop :=
  timerRunning (fields w) = true /\
  timerEndTime (fields w) = Some (Int endTime) /\
  frames (loop w) <> [].

(** The scenario of one-minute phases: 1 and 1 saved into the fresh
    timer. *)
Definition oneMinute : World :=
  saveTimerSettings (Some (lit "1")) (Some (lit "1")) init.

(** [k] phases of a timer started at [t0] and left alone: the frame at
    the end time of the phase, the timeout two seconds later, and so on
    from there. *)
Fixpoint cycles (k : nat) (t0 : Z) : list (Z * Event) :=
  match k with
  | S k' =>
      (t0 + 60000, Frame) :: (t0 + 62000, Timeout) :: cycles k' (t0 + 62000)
  | O => []
  end.

(** The two states a one-minute timer left alone is found in at clock
    time [c]: counting down towards an end time at most a minute away
    with one frame requested, or waiting for the one timeout that will
    start the next phase. *)
Definition countingDown (c : Z) (w : World) : Prop :=
  exists endTime remaining id,
    timerRunning (fields w) = true /\
    timerEndTime (fields w) = Some (Int endTime) /\
    endTime - c <= 60000 /\
    timeLeft (fields w) = Int remaining /\ 1 <= remaining <= 60 /\
    frames (loop w) = [id] /\ timeouts (loop w) = [].

Definition betweenPhases (c : Z) (w : World) : Prop :=
  exists due,
    timerRunning (fields w) = false /\
    timeLeft (fields w) = Int 60 /\
    timerAnimationFrame (fields w) = None /\
    frames (loop w) = [] /\ timeouts (loop w) = [due] /\ due <= c + 2000.

Definition alternating (c : Z) (w : World) : Prop :=
  workTime (fields w) = Int 60 /\ breakTime (fields w) = Int 60 /\
  (countingDown c w \/ betweenPhases c w).

(** [P] holds of the time and the world right after every step of the
    run that flips the phase flag. *)
Fixpoint atEveryFlip (P : Z -> World -> Prop) (tr : list (Z * Event))
    (w : World) : Prop :=
  match tr with
  | (now, e) :: tr' =>
      let w' := handle now e w in
      (isWorkSession (fields w') <> isWorkSession (fields w) -> P now w') /\
      atEveryFlip P tr' w'
  | [] => True
  end.

(** Right after a flip of the one-minute timer: stopped, a full minute
    on the display, the next start due two seconds later. *)
Definition resetForNextPhase (now : Z) (w : World) : Prop :=
  timerRunning (fields w) = false /\ timeLeft (fields w) = Int 60 /\
  timeouts (loop w) = [now + 2000].

(** The one-minute timer as [startTimer] leaves it at time [t] in the
    phase [session], with [id] the frame it requested. *)
Definition started (session : bool) (t : Z) (id : positive) : World :=
  mkWorld (mkFields (Int 60) (Int 60) (Int 60) session true
                    (Some (Int (t + 60000))) (Some id))
          (mkLoop [id] [] (Pos.succ id)).



End Timer.

(* ================================================================== *)
(** * Task list                                                         *)
(* ================================================================== *)

Module Tasks.
Import JSString.

Record Task := mkTask {
  id : Z;
  text : jsstring;
  completed : bool
}.

(** [this.tasks] and the [value] of the [.task-input] field. *)
Record State := mkState {
  tasks : list Task;
  input : jsstring
}.

Definition init : State := mkState [] [].

(** An empty string is the only falsy string. *)
Definition falsy (s : jsstring) : bool :=
  match s with
  | [] => true
  | _ => false
  end.

Definition addTask (now : Z) (st : State) : State :=
  let text := trim (input st) in
  if falsy text then st
  else mkState (tasks st ++ [mkTask now text false]) [].

(** [this.tasks.find(t => t.id === taskId)], then the flip of the task
    found: the first match changes in place. *)
Fixpoint toggleFirst (taskId : Z) (ts : list Task) : list Task :=
  match ts with
  | t :: ts' =>
      if id t =? taskId
      then mkTask (id t) (text t) (negb (completed t)) :: ts'
      else t :: toggleFirst taskId ts'
  | [] => []
  end.

Definition toggleTask (taskId : Z) (st : State) : State :=
  mkState (toggleFirst taskId (tasks st)) (input st).

Definition deleteTask (taskId : Z) (st : State) : State :=
  mkState (filter (fun t => negb (id t =? taskId)) (tasks st)) (input st).

(** The user's side of [add(text)]: the text is typed into the field,
    then Add is clicked (or Enter pressed) at time [now]. *)
Definition typeText (s : jsstring) (st : State) : State :=
  mkState (tasks st) s.

Definition add (s : jsstring) (now : Z) (st : State) : State :=
  addTask now (typeText s st).

(** What the spec asks of [delete]: the first task with the id goes,
    the others stay. *)
Fixpoint removeFirst (taskId : Z) (ts : list Task) : list Task :=
  match ts with
  | t :: ts' => if id t =? taskId then ts' else t :: removeFirst taskId ts'
  | [] => []
  end.

Definition occurrences (taskId : Z) (ts : list Task) : nat :=
  length (filter (fun t => id t =? taskId) ts).

End Tasks.

(* ================================================================== *)
(** * The view, and [createDailyFile] against the host                  *)
(* ================================================================== *)

Module View.
Import JSString.

(** A thrown value, read through [error.message]. *)
Record Error := mkError { message : jsstring }.

Inductive outcome (A : Type) :=
| Returns (a : A)
| Throws (e : Error).
Arguments Returns {A} a.
Arguments Throws {A} e.

(** The three calls the view makes on Obsidian: the vault's
    [getAbstractFileByPath] and [create], and [openFile] of the leaf
    that [workspace.getLeaf(false)] hands out.  [H] is the state of the
    host, [File] its file handles.  The two asynchronous calls may
    change the host and either return or throw. *)
Class Host (H File : Type) := {
  getAbstractFileByPath : H -> jsstring -> option File;
  create : H -> jsstring -> jsstring -> H * outcome File;
  openFile : H -> File -> H * outcome unit
}.

(** A paragraph added to the first [.dtp-section]. *)
Record Message := mkMessage {
  handle : positive;
  msgText : jsstring;
  cls : jsstring
}.

(** The view: the calendar cursor, the timer, the task list, and of the
    page the paragraphs of the first [.dtp-section] ([None] while the
    view has no such section), the pending [setTimeout(() =>
    successMsg.remove(), 3000)] calls with their due time, and the next
    element handle. *)
Record View := mkView {
  currentDate : JSDate.Date;
  timer : Timer.World;
  taskList : Tasks.State;
  section : option (list Message);
  removals : list (Z * positive);
  nextHandle : positive
}.

Definition fileContent : jsstring :=
  lit "# Header 1" ++ [10; 10]%N ++ lit "## Header 2" ++ [10; 10]%N ++
  lit "### Header 3" ++ [10; 10]%N.

(** U+2705 and U+274C, the marks the two messages begin with. *)
Definition successText (fileName : jsstring) : jsstring :=
  [9989%N] ++ lit " File created: " ++ fileName.

Definition errorText (e : Error) : jsstring :=
  [10060%N] ++ lit " Error creating file: " ++ message e.

(** The success branch after the file is open: with a section in the
    page, a paragraph that a timeout removes 3 seconds later. *)
Definition showSuccess (now : Z) (fileName : jsstring) (v : View) : View :=
  match section v with
  | Some msgs =>
      mkView (currentDate v) (timer v) (taskList v)
             (Some (msgs ++ [mkMessage (nextHandle v) (successText fileName)
                                       (lit "success-message")]))
             (removals v ++ [(now + 3000, nextHandle v)])
             (Pos.succ (nextHandle v))
  | None => v
  end.

(** The [catch] branch: with a section in the page, a paragraph that
    nothing removes. *)
Definition showError (e : Error) (v : View) : View :=
  match section v with
  | Some msgs =>
      mkView (currentDate v) (timer v) (taskList v)
             (Some (msgs ++ [mkMessage (nextHandle v) (errorText e)
                                       (lit "error-message")]))
             (removals v)
             (Pos.succ (nextHandle v))
  | None => v
  end.

Section CreateDailyFile.
Context {H File : Type} `{Host H File}.

Definition createDailyFile (now : Z) (dateStr : jsstring) (hv : H * View)
  : H * View :=
  let (h, v) := hv in
  let fileName := dateStr ++ lit ".md" in
  match getAbstractFileByPath h fileName with
  | Some existingFile =>
      match openFile h existingFile with
      | (h1, Returns _) => (h1, v)
      | (h1, Throws error) => (h1, showError error v)
      end
  | None =>
      match create h fileName fileContent with
      | (h1, Returns newFile) =>
          match openFile h1 newFile with
          | (h2, Returns _) => (h2, showSuccess now fileName v)
          | (h2, Throws error) => (h2, showError error v)
          end
      | (h1, Throws error) => (h1, showError error v)
      end
  end.

End CreateDailyFile.

(** The oldest removal timeout expiring: its paragraph leaves the page. *)
Definition removalFires (now : Z) (v : View) : View :=
  match removals v with
  | (due, target) :: rest =>
      if due <=? now
      then mkView (currentDate v) (timer v) (taskList v)
                  (option_map
                     (filter (fun m => negb (Pos.eqb (handle m) target)))
                     (section v))
                  rest (nextHandle v)
      else v
  | [] => v
  end.

(** Removal timeouts expiring one after the other at the given times. *)
Fixpoint removalsFire (times : list Z) (v : View) : View :=
  match times with
  | t :: times' => removalsFire times' (removalFires t v)
  | [] => v
  end.

(** Element handles are handed out in increasing order: every pending
    removal aims at a handle already given away. *)
Definition wellFormed (v : View) : Prop :=
  Forall (fun r => (snd r < nextHandle v)%positive) (removals v).

(** The paragraph [m] is in the section. *)
Definition shows (m : Message) (v : View) : Prop :=
  exists msgs, section v = Some msgs /\ In m msgs.

(** ** A host for examples: a vault held in memory *)

(** Paths with their contents, the files opened so far, and the faults
    the next [create] and the next [openFile] will throw, if any. *)
Record MemHost := mkMemHost {
  files : list (jsstring * jsstring);
  opened : list jsstring;
  createFault : option Error;
  openFault : option Error
}.

Definition sameString (a b : jsstring) : bool :=
  if list_eq_dec N.eq_dec a b then true else false.

Definition memLookup (h : MemHost) (path : jsstring) : option jsstring :=
  match find (fun f => sameString (fst f) path) (files h) with
  | Some f => Some (fst f)
  | None => None
  end.

Definition memCreate (h : MemHost) (path content : jsstring)
  : MemHost * outcome jsstring :=
  match createFault h with
  | Some e => (h, Throws e)
  | None =>
      (mkMemHost (files h ++ [(path, content)]) (opened h)
                 (createFault h) (openFault h),
       Returns path)
  end.

Definition memOpen (h : MemHost) (path : jsstring) : MemHost * outcome unit :=
  match openFault h with
  | Some e => (h, Throws e)
  | None =>
      (mkMemHost (files h) (opened h ++ [path]) (createFault h) (openFault h),
       Returns tt)
  end.

#[export] Instance memHost : Host MemHost jsstring := {
  getAbstractFileByPath := memLookup;
  create := memCreate;
  openFile := memOpen
}.

(** A freshly opened view on 2 November 2026, a vault that holds that
    day's note, and an empty vault on a disk that refuses to create. *)
Definition openedView : View :=
  mkView (JSDate.newDate 2026 10 2) Timer.init Tasks.init (Some []) [] 1.

Definition vaultWithNote : MemHost :=
  mkMemHost [(lit "2026-11-02.md", lit "# notes")] [] None None.

Definition readOnlyVault : MemHost :=
  mkMemHost [] [] (Some (mkError (lit "EACCES: permission denied"))) None.

End View.

(* ================================================================== *)
(** * Texts the view writes: dates, the clock face                      *)
(* ================================================================== *)

Module JSText.
Import JSNum JSString.

(** The decimal digits of [n >= 0] in front of [acc], lowest digit
    last; [fuel] bounds the number of digits. *)
Fixpoint digitsFrom (fuel : nat) (n : Z) (acc : jsstring) : jsstring :=
  match fuel with
  | O => acc
  | S fuel' =>
      let acc' := Z.to_N (48 + n mod 10) :: acc in
      if n <? 10 then acc' else digitsFrom fuel' (n / 10) acc'
  end.

(** The value of a digit. *)
Definition digitValue (c : N) : Z := Z.of_N c - 48.

(** [Number.MAX_SAFE_INTEGER]: up to it, in both directions, every
    integer is a number of its own and is written with all its digits. *)
Definition MAX_SAFE_INTEGER : Z := 9007199254740991.

(** [String(z)] for a safe integer [z]: a minus sign for a negative
    one, then the decimal digits without leading zero.  (Beyond the safe
    integers a number is written with its shortest digits and zeros, and
    in exponent form from 1e21 on; that is not modelled.) *)
Definition toStringInt (z : Z) : jsstring :=
  if z <? 0
  then 45%N :: digitsFrom (S (Z.to_nat (Z.log2 (- z)))) (- z) []
  else digitsFrom (S (Z.to_nat (Z.log2 z))) z [].

Definition toString (a : num) : jsstring :=
  match a with
  | Int z => toStringInt z
  | NaN => lit "NaN"
  end.

(** [s.padStart(2, '0')]. *)
Definition padStart2 (s : jsstring) : jsstring :=
  match s with
  | [] => [48; 48]%N
  | [c] => [48%N; c]
  | _ => s
  end.

(** [Math.floor(a / 60)] and [a % 60]; the remainder has the sign of
    [a]. *)
Definition floorDiv60 (a : num) : num :=
  match a with
  | Int z => Int (z / 60)
  | NaN => NaN
  end.

Definition rem60 (a : num) : num :=
  match a with
  | Int z => Int (Z.rem z 60)
  | NaN => NaN
  end.

End JSText.

Module CalendarText.
Import JSDate JSString JSText Calendar.

Definition formatDateString (date : Date) : jsstring :=
  let year := getFullYear date in
  let month := padStart2 (toStringInt (getMonth date + 1)) in
  let day := padStart2 (toStringInt (getDate date)) in
  toStringInt year ++ [45%N] ++ month ++ [45%N] ++ day.

(** The [data-date] attribute of a cell, read by its click listener;
    an empty cell has neither. *)
Definition dataDate (c : Cell) : option jsstring :=
  match c with
  | DayCell _ date _ => Some (formatDateString date)
  | Empty => None
  end.

Definition markedToday (c : Cell) : bool :=
  match c with
  | DayCell _ _ isToday => isToday
  | Empty => false
  end.

(** Number of cells of class [today]. *)
Definition todayCount (g : Grid) : nat :=
  length (filter markedToday (cells g)).



End CalendarText.

(* ================================================================== *)
(** * Timer: the clock face, closing the view                           *)
(* ================================================================== *)

Module TimerView.
Import JSNum JSString JSText Timer.

(** [onClose]: the recorded frame request is cancelled; nothing else
    of the timer is touched. *)
Definition onClose (w : World) : World :=
  match timerAnimationFrame (fields w) with
  | Some id => mkWorld (fields w) (cancelAnimationFrame id (loop w))
  | None => w
  end.

(** The text [updateTimerDisplay] writes into [.timer-time]. *)
Definition timeText (f : Fields) : jsstring :=
  let minutes := floorDiv60 (timeLeft f) in
  let seconds := rem60 (timeLeft f) in
  padStart2 (toString minutes) ++ [58%N] ++ padStart2 (toString seconds).

(** ** Vocabulary *)

(** A running timer has exactly the frame request it recorded pending;
    a stopped one has none pending and none recorded. *)
Definition frameDiscipline (w : World) : Prop :=
  if timerRunning (fields w)
  then exists id, timerAnimationFrame (fields w) = Some id /\
                  frames (loop w) = [id]
  else timerAnimationFrame (fields w) = None /\ frames (loop w) = [].

(** The duration of the current phase. *)
Definition phaseTime (f : Fields) : num :=
  if isWorkSession f then workTime f else breakTime f.


End TimerView.

(* ================================================================== *)
(** * Task list: the rendered rows and their listeners                  *)
(* ================================================================== *)

Module TaskRows.
Import JSString Tasks.

(** A [.task-item]: the state of its check box (and of its class
    [completed]), its text, and the task id both of its listeners
    closed over. *)
Record Row := mkRow {
  rowChecked : bool;
  rowText : jsstring;
  rowTaskId : Z
}.

(** What [renderTasks] leaves in the container: the one
    [.empty-tasks] message, or a row per task. *)
Inductive Rendered :=
| EmptyMessage
| Rows (rows : list Row).

Definition renderTasks (st : State) : Rendered :=
  match tasks st with
  | [] => EmptyMessage
  | ts => Rows (map (fun t => mkRow (completed t) (text t) (id t)) ts)
  end.

Definition rowAt (i : nat) (st : State) : option Row :=
  match renderTasks st with
  | Rows rows => nth_error rows i
  | EmptyMessage => None
  end.

(** The [change] listener of the check box and the [click] listener
    of the delete button of row [i]. *)
Definition checkboxChange (i : nat) (st : State) : State :=
  match rowAt i st with
  | Some r => toggleTask (rowTaskId r) st
  | None => st
  end.

Definition deleteClick (i : nat) (st : State) : State :=
  match rowAt i st with
  | Some r => deleteTask (rowTaskId r) st
  | None => st
  end.

(** What the user does to the task list. *)
Inductive Event :=
| TypeText (s : jsstring)
| AddClick
| CheckboxChange (i : nat)
| DeleteClick (i : nat).

Definition handle (now : Z) (e : Event) (st : State) : State :=
  match e with
  | TypeText s => typeText s st
  | AddClick => addTask now st
  | CheckboxChange i => checkboxChange i st
  | DeleteClick i => deleteClick i st
  end.

Fixpoint run (tr : list (Z * Event)) (st : State) : State :=
  match tr with
  | (now, e) :: tr' => run tr' (handle now e st)
  | [] => st
  end.



(** The task with its check mark flipped. *)
Definition flipped (t : Task) : Task :=
  mkTask (id t) (text t) (negb (completed t)).

End TaskRows.

(* ================================================================== *)
(** * A click on a day of the calendar                                  *)
(* ================================================================== *)

Module DayClick.
Import JSString Calendar CalendarText View.

Section AnyHost.
Context {Hst File : Type} `{Host Hst File}.

(** The click listener [renderCalendar] puts on every cell that is not
    empty: [createDailyFile] with the cell's [data-date]. *)
Definition dayCellClick (now : Z) (c : Cell) (hv : Hst * View)
  : Hst * View :=
  match dataDate c with
  | Some dateStr => createDailyFile now dateStr hv
  | None => hv
  end.

End AnyHost.

(** Every paragraph of the section carries a handle already given
    away. *)
Definition knownHandles (v : View) : Prop :=
  match section v with
  | Some msgs => Forall (fun m => (handle m < nextHandle v)%positive) msgs
  | None => True
  end.

End DayClick.

(* ================================================================== *)
(** * Timer: the settings panel                                         *)
(* ================================================================== *)

Module SettingsPanel.
Import JSNum JSString JSText Timer.

(** The page side of the settings: whether [.timer-settings] is
    displayed, the [value]s of the two number fields, and the text of
    [.timer-info]. *)
Record Panel := mkPanel {
  visible : bool;
  workValue : jsstring;
  breakValue : jsstring;
  infoText : jsstring
}.

(** The markup of [addTimerSection]. *)
Definition initPanel : Panel :=
  mkPanel false (lit "40") (lit "5") (lit "Work: 40min | Break: 5min").

(** ** Vocabulary *)

(** A duration that is a whole number of minutes and a safe integer, or
    [NaN]. *)
Definition safeMinutes (duration : num) : bool :=
  match duration with
  | Int z => (z mod 60 =? 0) && (Z.abs z <=? MAX_SAFE_INTEGER)
  | NaN => true
  end.

(** A field text whose minutes, if it has any, make a safe number of
    seconds. *)
Definition safeField (s : jsstring) : bool :=
  match parseInt s with
  | Int m => Z.abs m * 60 <=? MAX_SAFE_INTEGER
  | NaN => true
  end.

Fixpoint savesSafe (tr : list (Z * Event)) : bool :=
  match tr with
  | [] => true
  | (_, ClickSave work brk) :: tr' =>
      safeField work && safeField brk && savesSafe tr'
  | _ :: tr' => savesSafe tr'
  end.

(** ** The panel *)

Section OtherText.

(** The text a number field keeps when it is assigned [z / 60] for a
    [z] that is no whole number of minutes or no safe integer: the
    digits of a fraction or of a rounded number, which are not
    modelled. *)
Variable otherText : Z -> jsstring.

(** [input.value = duration / 60] on a field of type [number]: the
    number as text; the text NaN is no valid number, and the field
    turns it into the empty string. *)
Definition minutesValue (duration : num) : jsstring :=
  match duration with
  | Int z => if safeMinutes (Int z) then toStringInt (z / 60) else otherText z
  | NaN => []
  end.

Definition toggleTimerSettings (w : World) (p : Panel) : Panel :=
  if visible p
  then mkPanel false (workValue p) (breakValue p) (infoText p)
  else mkPanel true (minutesValue (workTime (fields w)))
                    (minutesValue (breakTime (fields w))) (infoText p).

Definition updateTimerInfo (p : Panel) : Panel :=
  mkPanel (visible p) (workValue p) (breakValue p)
          (lit "Work: " ++ workValue p ++ lit "min | Break: " ++
           breakValue p ++ lit "min").

(** The whole of [saveTimerSettings], page included. *)
Definition saveClick (wp : World * Panel) : World * Panel :=
  let (w, p) := wp in
  let w' := saveTimerSettings (Some (workValue p)) (Some (breakValue p)) w in
  (w', toggleTimerSettings w' (updateTimerInfo p)).

End OtherText.

End SettingsPanel.

(* ================================================================== *)
(** * Properties                                                        *)
(* ================================================================== *)

Module JSDateFacts.
Import JSDate.

Lemma DayFromYear_succ y : DayFromYear (y + 1) = DayFromYear y + DaysInYear y.
Proof.
  unfold DayFromYear, DaysInYear, leapYear.
  repeat match goal with
         | |- context [?a =? ?b] => destruct (Z.eqb_spec a b); cbn [negb]
         end; Z.to_euclidean_division_equations; lia.
Qed.

Lemma YearFromDay_spec d :
  DayFromYear (YearFromDay d) <= d < DayFromYear (YearFromDay d + 1).
Proof.
  unfold YearFromDay.
  set (y0 := 1970 + 400 * d / 146097).
  destruct (Z.ltb_spec d (DayFromYear y0)) as [H1|H1].
  - replace (y0 - 1 + 1) with y0 by lia. split; [|lia].
    subst y0. unfold DayFromYear in *. Z.to_euclidean_division_equations. lia.
  - destruct (Z.leb_spec (DayFromYear (y0 + 1)) d) as [H2|H2]; [|lia].
    split; [lia|].
    subst y0. unfold DayFromYear in *. Z.to_euclidean_division_equations. lia.
Qed.

Lemma DayFromYear_lt y y' : y < y' -> DayFromYear (y + 1) <= DayFromYear y'.
Proof.
  unfold DayFromYear. intros H. Z.to_euclidean_division_equations. lia.
Qed.

(** The year of a day number is determined by the defining inequality. *)
Lemma YearFromDay_unique d y :
  DayFromYear y <= d < DayFromYear (y + 1) -> YearFromDay d = y.
Proof.
  intros Hy. pose proof (YearFromDay_spec d) as Hs.
  destruct (Z.lt_trichotomy (YearFromDay d) y) as [Hlt|[Heq|Hgt]]; auto.
  - pose proof (DayFromYear_lt _ _ Hlt). lia.
  - pose proof (DayFromYear_lt _ _ Hgt). lia.
Qed.

Lemma Day_MakeDate day time :
  0 <= time < msPerDay -> Day (MakeDate day time) = day.
Proof.
  intros H. unfold Day, MakeDate.
  rewrite Z.add_comm, Z.div_add by (unfold msPerDay; lia).
  rewrite Z.div_small by assumption. reflexivity.
Qed.

Lemma TimeWithinDay_MakeDate day time :
  0 <= time < msPerDay -> TimeWithinDay (MakeDate day time) = time.
Proof.
  intros H. unfold TimeWithinDay, MakeDate.
  rewrite Z.add_comm, Z.mod_add by (unfold msPerDay; lia).
  apply Z.mod_small; assumption.
Qed.

Lemma TimeWithinDay_range t : 0 <= TimeWithinDay t < msPerDay.
Proof. unfold TimeWithinDay. apply Z.mod_pos_bound. reflexivity. Qed.

Lemma monthStart_succ leap mn :
  0 <= mn < 12 ->
  monthStart leap mn + daysInMonth leap mn =
  if mn =? 11 then (if leap then 366 else 365) else monthStart leap (mn + 1).
Proof.
  intros H.
  assert (mn = 0 \/ mn = 1 \/ mn = 2 \/ mn = 3 \/ mn = 4 \/ mn = 5 \/ mn = 6 \/
          mn = 7 \/ mn = 8 \/ mn = 9 \/ mn = 10 \/ mn = 11) as Hc by lia.
  repeat (destruct Hc as [->|Hc]); try subst mn; destruct leap; reflexivity.
Qed.

Lemma daysInMonth_range leap mn : 28 <= daysInMonth leap mn <= 31.
Proof.
  unfold daysInMonth.
  destruct mn as [|p|p]; try lia;
    repeat (destruct p as [p|p|]; try lia); destruct leap; lia.
Qed.

(** Year, month and day of the month read back from a time value built
    by [MakeDay] from a calendar date. *)
Lemma civil_of_MakeDay y mn dt time :
  0 <= mn < 12 -> 1 <= dt <= daysInMonth (leapYear y) mn ->
  0 <= time < msPerDay ->
  let t := MakeDate (MakeDay y mn dt) time in
  YearFromTime t = y /\ MonthFromTime t = mn /\ DateFromTime t = dt.
Proof.
  intros Hm Hd Ht t.
  assert (Hday : Day t = DayFromYear y + monthStart (leapYear y) mn + dt - 1).
  { unfold t. rewrite Day_MakeDate by assumption. unfold MakeDay.
    rewrite Z.div_small, Z.mod_small, Z.add_0_r by lia. reflexivity. }
  clearbody t.
  assert (Hy : YearFromTime t = y).
  { unfold YearFromTime. apply YearFromDay_unique. rewrite Hday.
    rewrite DayFromYear_succ. unfold DaysInYear.
    assert (mn = 0 \/ mn = 1 \/ mn = 2 \/ mn = 3 \/ mn = 4 \/ mn = 5 \/ mn = 6 \/
            mn = 7 \/ mn = 8 \/ mn = 9 \/ mn = 10 \/ mn = 11) as Hc by lia.
    generalize (DayFromYear y); intros D.
    repeat (destruct Hc as [->|Hc]); try subst mn;
      destruct (leapYear y); cbn [monthStart daysInMonth] in Hd |- *; lia. }
  assert (Hw : DayWithinYear t = monthStart (leapYear y) mn + dt - 1).
  { unfold DayWithinYear. rewrite Hy, Hday. lia. }
  assert (Hl : InLeapYear t = if leapYear y then 1 else 0).
  { unfold InLeapYear. rewrite Hy. reflexivity. }
  assert (Hmo : MonthFromTime t = mn).
  { unfold MonthFromTime. rewrite Hw, Hl.
    assert (mn = 0 \/ mn = 1 \/ mn = 2 \/ mn = 3 \/ mn = 4 \/ mn = 5 \/ mn = 6 \/
            mn = 7 \/ mn = 8 \/ mn = 9 \/ mn = 10 \/ mn = 11) as Hc by lia.
    repeat (destruct Hc as [->|Hc]); try subst mn;
      destruct (leapYear y); cbn [monthStart daysInMonth] in Hd |- *;
      repeat match goal with
             | |- context [?a <? ?b] => destruct (Z.ltb_spec a b); try lia
             end. }
  split; [exact Hy|]. split; [exact Hmo|].
  unfold DateFromTime. rewrite Hmo, Hw, Hl. clear Hmo.
  assert (mn = 0 \/ mn = 1 \/ mn = 2 \/ mn = 3 \/ mn = 4 \/ mn = 5 \/ mn = 6 \/
          mn = 7 \/ mn = 8 \/ mn = 9 \/ mn = 10 \/ mn = 11) as Hc by lia.
  repeat (destruct Hc as [->|Hc]); try subst mn;
    destruct (leapYear y); cbn [monthStart]; lia.
Qed.

Lemma MakeDay_in_year y mn dt :
  0 <= mn < 12 ->
  MakeDay y mn dt = DayFromYear y + monthStart (leapYear y) mn + dt - 1.
Proof.
  intros H. unfold MakeDay.
  rewrite Z.div_small, Z.mod_small, Z.add_0_r by lia. reflexivity.
Qed.

(** Every time value is the calendar date its getters report. *)
Lemma civil_decompose t :
  let y := YearFromTime t in
  let mn := MonthFromTime t in
  let dt := DateFromTime t in
  0 <= mn < 12 /\ 1 <= dt <= daysInMonth (leapYear y) mn /\
  Day t = MakeDay y mn dt.
Proof.
  pose proof (YearFromDay_spec (Day t)) as Hs.
  rewrite DayFromYear_succ in Hs. fold (YearFromTime t) in Hs.
  unfold DaysInYear in Hs.
  assert (Hw : 0 <= DayWithinYear t <
               if leapYear (YearFromTime t) then 366 else 365).
  { unfold DayWithinYear. destruct (leapYear (YearFromTime t)); lia. }
  assert (Hd : Day t = DayFromYear (YearFromTime t) + DayWithinYear t).
  { unfold DayWithinYear. lia. }
  cbv zeta. unfold DateFromTime, MonthFromTime, InLeapYear.
  rewrite Hd. revert Hw. generalize (DayWithinYear t). intros w Hw.
  destruct (leapYear (YearFromTime t)) eqn:E;
    repeat match goal with
           | |- context [?a <? ?b] => destruct (Z.ltb_spec a b)
           end;
    cbv iota; rewrite MakeDay_in_year by lia; rewrite E;
    cbn [daysInMonth monthStart]; lia.
Qed.

(** Day 0 of the following month is the last day of the month. *)
Lemma MakeDay_last_of_month y mn :
  0 <= mn < 12 ->
  MakeDay y (mn + 1) 0 = MakeDay y mn (daysInMonth (leapYear y) mn).
Proof.
  intros H. pose proof (monthStart_succ (leapYear y) mn H) as Hs.
  rewrite (MakeDay_in_year y mn) by assumption.
  destruct (Z.eqb_spec mn 11) as [->|Hne].
  - unfold MakeDay. change ((11 + 1) / 12) with 1.
    change ((11 + 1) mod 12) with 0.
    rewrite DayFromYear_succ. unfold DaysInYear. cbn [monthStart] in *.
    destruct (leapYear y), (leapYear (y + 1)); lia.
  - rewrite MakeDay_in_year by lia. lia.
Qed.

Lemma WeekDay_range t : 0 <= WeekDay t < 7.
Proof. unfold WeekDay. apply Z.mod_pos_bound. lia. Qed.

End JSDateFacts.

Module CalendarFacts.
Import JSDate JSDateFacts Calendar.

Lemma mondayFirst_mod w : 0 <= w < 7 -> mondayFirst w = (w + 6) mod 7.
Proof.
  intros H. unfold mondayFirst.
  destruct (Z.eqb_spec w 0) as [->|Hne]; [reflexivity|].
  replace (w + 6) with (w - 1 + 1 * 7) by lia.
  rewrite Z.mod_add, Z.mod_small; lia.
Qed.

Lemma leadingBlanks_repeat k cs :
  leadingBlanks (repeat Empty k ++ cs) = Z.of_nat k + leadingBlanks cs.
Proof.
  induction k as [|k IH]; [reflexivity|].
  cbn [repeat app leadingBlanks]. rewrite IH. lia.
Qed.

Lemma leadingBlanks_days (f : Z -> Cell) ds :
  (forall d, f d <> Empty) -> leadingBlanks (map f ds) = 0.
Proof.
  intros Hf. destruct ds as [|d ds]; [reflexivity|].
  cbn [map leadingBlanks]. specialize (Hf d). destruct (f d); congruence.
Qed.

Lemma dayRange_length n : 0 <= n -> Z.of_nat (length (dayRange n)) = n.
Proof.
  intros H. unfold dayRange. rewrite length_map, length_seq. lia.
Qed.

Lemma dayRange_nth n day :
  1 <= day <= n -> nth_error (dayRange n) (Z.to_nat (day - 1)) = Some day.
Proof.
  intros H. unfold dayRange. rewrite nth_error_map.
  rewrite nth_error_seq.
  destruct (Nat.ltb_spec (Z.to_nat (day - 1)) (Z.to_nat n)) as [_|Hge]; [|lia].
  cbn [option_map]. f_equal. lia.
Qed.

Lemma newDate_civil year month day :
  0 <= month < 12 ->
  1 <= day <= daysInMonth (leapYear (resolvedYear year)) month ->
  let date := newDate year month day in
  getFullYear date = resolvedYear year /\ getMonth date = month /\
  getDate date = day /\
  getDay date = (MakeDay (resolvedYear year) month 1 + day - 1 + 4) mod 7.
Proof.
  intros Hm Hd date.
  assert (Ht : 0 <= 0 < msPerDay) by (unfold msPerDay; lia).
  destruct (civil_of_MakeDay (resolvedYear year) month day 0 Hm Hd Ht)
    as (Hy & Hmo & Hda).
  unfold getFullYear, getMonth, getDate, getDay, date, newDate. cbn [tv].
  repeat split; try assumption.
  unfold WeekDay. rewrite Day_MakeDate by assumption.
  f_equal. unfold MakeDay. lia.
Qed.

Lemma lastDay_getDate year month :
  0 <= month < 12 ->
  getDate (newDate year (month + 1) 0) =
  daysInMonth (leapYear (resolvedYear year)) month.
Proof.
  intros Hm. unfold getDate, newDate. cbn [tv].
  rewrite MakeDay_last_of_month by assumption.
  pose proof (daysInMonth_range (leapYear (resolvedYear year)) month).
  apply civil_of_MakeDay; unfold msPerDay; lia.
Qed.

Lemma cells_monthGrid today year month :
  0 <= month < 12 ->
  cells (monthGrid today year month) =
  repeat Empty (Z.to_nat (mondayFirst (getDay (newDate year month 1)))) ++
  map (fun day => DayCell day (newDate year month day)
                    (isDateToday today (newDate year month day)))
      (dayRange (daysInMonth (leapYear (resolvedYear year)) month)).
Proof.
  intros Hm. unfold monthGrid. cbn [cells].
  rewrite lastDay_getDate by assumption. reflexivity.
Qed.

(** C8. For every year and every month 0..11, the grid [renderCalendar]
    builds starts with [(firstDay.getDay() + 6) mod 7] empty cells, six of
    them when the month starts on a Sunday; after them comes one cell per
    day of the month, exactly as many as the month has days; and in a
    seven-column layout every day cell lies in the Monday-first column of
    its own date's weekday.  [firstDay] is the [new Date(year, month, 1)]
    of the source, whose year is [year] except for the years 0 to 99,
    which [Date] reads as 1900 to 1999. *)
Theorem monthGrid_layout (today : Date) (year month : Z) :
  0 <= month <= 11 ->
  let g := monthGrid today year month in
  let firstDay := newDate year month 1 in
  let blanks := leadingBlanks (cells g) in
  let n := daysInMonth (leapYear (getFullYear firstDay)) month in
  blanks = (getDay firstDay + 6) mod 7 /\
  (getDay firstDay = 0 -> blanks = 6) /\
  getFullYear firstDay = resolvedYear year /\
  getMonth firstDay = month /\ getDate firstDay = 1 /\
  Z.of_nat (length (cells g)) = blanks + n /\
  (forall i, 0 <= i < blanks -> cellAt g i = Some Empty) /\
  (forall day, 1 <= day <= n ->
     exists date isToday,
       cellAt g (blanks + day - 1) = Some (DayCell day date isToday) /\
       date = newDate year month day /\
       getFullYear date = getFullYear firstDay /\
       getMonth date = month /\ getDate date = day /\
       column (blanks + day - 1) = (getDay date + 6) mod 7).
Proof.
  intros Hm g firstDay blanks n.
  assert (Hm' : 0 <= month < 12) by lia.
  pose proof (daysInMonth_range (leapYear (resolvedYear year)) month) as Hr.
  destruct (newDate_civil year month 1 Hm' ltac:(lia)) as (Hy1 & Hm1 & Hd1 & Hw1).
  fold firstDay in Hy1, Hm1, Hd1, Hw1.
  assert (Hn : n = daysInMonth (leapYear (resolvedYear year)) month)
    by (unfold n; rewrite Hy1; reflexivity).
  pose proof (WeekDay_range (tv firstDay)) as Hwr. fold (getDay firstDay) in Hwr.
  pose proof (mondayFirst_mod _ Hwr) as Hmf.
  assert (Hsd : 0 <= mondayFirst (getDay firstDay) < 7)
    by (rewrite Hmf; apply Z.mod_pos_bound; lia).
  assert (Hcells := cells_monthGrid today year month Hm').
  fold g firstDay in Hcells. rewrite <- Hn in Hcells.
  assert (Hb : blanks = mondayFirst (getDay firstDay)).
  { unfold blanks. rewrite Hcells, leadingBlanks_repeat.
    rewrite leadingBlanks_days by discriminate. lia. }
  assert (Hlen : Z.of_nat (length (cells g)) = blanks + n).
  { rewrite Hcells, length_app, repeat_length, length_map, Nat2Z.inj_add.
    rewrite dayRange_length by lia. lia. }
  split; [congruence|]. split; [intros H0; rewrite Hb, H0; reflexivity|].
  split; [assumption|].
  split; [assumption|]. split; [assumption|]. split; [assumption|]. split.
  - intros i Hi. unfold cellAt. destruct (Z.ltb_spec i 0); [lia|].
    rewrite Hcells, nth_error_app1 by (rewrite repeat_length; lia).
    apply nth_error_repeat. lia.
  - intros day Hday.
    destruct (newDate_civil year month day Hm' ltac:(lia))
      as (Hy & Hmo & Hda & Hw).
    exists (newDate year month day),
           (isDateToday today (newDate year month day)).
    split.
    + unfold cellAt. destruct (Z.ltb_spec (blanks + day - 1) 0); [lia|].
      rewrite Hcells, nth_error_app2 by (rewrite repeat_length; lia).
      rewrite repeat_length, nth_error_map.
      replace (Z.to_nat (blanks + day - 1) -
               Z.to_nat (mondayFirst (getDay firstDay)))%nat
        with (Z.to_nat (day - 1)) by lia.
      rewrite dayRange_nth by lia. reflexivity.
    + repeat split; try assumption; try congruence.
      unfold column. rewrite Hw, Hb, Hmf, Hw1.
      generalize (MakeDay (resolvedYear year) month 1). intros D.
      Z.to_euclidean_division_equations. lia.
Qed.

(** The layout theorem at November 2026, rendered on 2 November 2026. *)
Lemma monthGrid_layout_witness :
  0 <= 10 <= 11 /\
  leadingBlanks (cells (monthGrid (newDate 2026 10 2) 2026 10)) = 6.
Proof.
  split; [lia|].
  destruct (monthGrid_layout (newDate 2026 10 2) 2026 10 ltac:(lia))
    as (Hb & _).
  rewrite Hb. reflexivity.
Defined.

Lemma MakeDate_Day_TimeWithinDay t : MakeDate (Day t) (TimeWithinDay t) = t.
Proof.
  unfold MakeDate, Day, TimeWithinDay.
  pose proof (Z.div_mod t msPerDay ltac:(unfold msPerDay; lia)). lia.
Qed.

Lemma MakeDay_next_year y dt : MakeDay y 12 dt = MakeDay (y + 1) 0 dt.
Proof.
  rewrite (MakeDay_in_year (y + 1) 0) by lia.
  unfold MakeDay. change (12 / 12) with 1. change (12 mod 12) with 0.
  reflexivity.
Qed.

Lemma MakeDay_prev_year y dt : MakeDay (y + 1) (-1) dt = MakeDay y 11 dt.
Proof.
  rewrite (MakeDay_in_year y 11) by lia.
  unfold MakeDay. change (-1 / 12) with (-1). change (-1 mod 12) with 11.
  replace (y + 1 + -1) with y by lia. reflexivity.
Qed.

(** Away from the end of the month the two buttons undo each other: a
    cursor whose day of the month is at most 28 comes back unchanged. *)
Lemma navigate_roundtrip_upto_28 (currentDate : Date) :
  getDate currentDate <= 28 ->
  navigate (-1) (navigate 1 currentDate) = currentDate.
Proof.
  destruct currentDate as [t]. unfold getDate. cbn [tv]. intros H28.
  change (navigate 1 (mkDate t)) with (nextMonthClick (mkDate t)).
  change (navigate (-1) (nextMonthClick (mkDate t)))
    with (prevMonthClick (nextMonthClick (mkDate t))).
  destruct (civil_decompose t) as (Hm & Hd & Hday).
  pose proof (TimeWithinDay_range t) as Htw.
  unfold nextMonthClick, getMonth, setMonth. cbn [tv].
  set (y := YearFromTime t) in *. set (mn := MonthFromTime t) in *.
  set (dt := DateFromTime t) in *. set (tw := TimeWithinDay t) in *.
  assert (Hnext : exists y' mn', 0 <= mn' < 12 /\
             MakeDay y (mn + 1) dt = MakeDay y' mn' dt /\
             MakeDay y' (mn' - 1) dt = MakeDay y mn dt).
  { destruct (Z.eqb_spec mn 11) as [E|E].
    - exists (y + 1), 0. rewrite E. split; [lia|]. split.
      + apply MakeDay_next_year.
      + apply MakeDay_prev_year.
    - exists y, (mn + 1). split; [lia|]. split; [reflexivity|].
      f_equal. lia. }
  destruct Hnext as (y' & mn' & Hm' & Hfwd & Hback).
  pose proof (daysInMonth_range (leapYear y') mn') as Hr.
  destruct (civil_of_MakeDay y' mn' dt tw Hm' ltac:(lia) Htw)
    as (Hy2 & Hm2 & Hd2).
  unfold prevMonthClick, getMonth, setMonth. cbn [tv].
  rewrite Hfwd, Hy2, Hm2, Hd2, TimeWithinDay_MakeDate, Hback by assumption.
  rewrite <- Hday. unfold tw. rewrite MakeDate_Day_TimeWithinDay. reflexivity.
Qed.

(** C1. The cursor of 31 January 2025: the next-month button leaves it
    on 3 March 2025 ([setMonth] carries the 31st over the end of
    February), and the previous-month button then leaves it on
    3 February 2025, so the (year, month) pair does not come back to
    (2025, January). *)
Theorem navigate_roundtrip_jan31 :
  let cur := newDate 2025 0 31 in
  cursor cur = (2025, 0) /\ getDate cur = 31 /\
  cursor (navigate 1 cur) = (2025, 2) /\ getDate (navigate 1 cur) = 3 /\
  cursor (navigate (-1) (navigate 1 cur)) = (2025, 1) /\
  getDate (navigate (-1) (navigate 1 cur)) = 3 /\
  cursor (navigate (-1) (navigate 1 cur)) <> cursor cur.
Proof.
  cbv zeta. repeat split; try (vm_compute; reflexivity).
  vm_compute. discriminate.
Qed.

End CalendarFacts.

Module JSNumFacts.
Import JSNum.

(** [Math.round] of a quotient by 1000, in integer arithmetic. *)
Lemma Math_round_thousandth (z : Z) :
  Math_round (z # 1000) = (z + 500) / 1000.
Proof.
  unfold Math_round, Qplus, Qfloor. cbn [Qnum Qden].
  change (Z.pos (1000 * 2)) with 2000.
  Z.to_euclidean_division_equations. lia.
Qed.

Lemma Math_round_div (z : Z) :
  Math_round (inject_Z z / 1000) = (z + 500) / 1000.
Proof.
  rewrite <- Math_round_thousandth.
  unfold Math_round, Qdiv, Qmult, Qinv, Qplus, Qfloor, inject_Z.
  cbn [Qnum Qden]. f_equal; lia.
Qed.

(** The rounded value is the integer nearest to the quotient, the upper
    one at a tie. *)
Lemma Math_round_nearest (z : Z) :
  let r := Math_round (inject_Z z / 1000) in
  1000 * r - 500 <= z < 1000 * r + 500.
Proof.
  cbv zeta. rewrite Math_round_div. Z.to_euclidean_division_equations. lia.
Qed.

End JSNumFacts.

Module TimerFacts.
Import JSNum JSNumFacts JSString Timer.

Lemma secondsLeft_div endTime now :
  secondsLeft endTime now = Z.max 0 ((endTime - now + 500) / 1000).
Proof. unfold secondsLeft. rewrite Math_round_div. reflexivity. Qed.

Lemma remainingSec_secondsLeft endTime now :
  Math_max (Int 0) (roundDiv (sub (Int endTime) (Int now)) 1000)
  = Int (secondsLeft endTime now).
Proof.
  cbn [sub roundDiv Math_max]. rewrite Math_round_thousandth.
  rewrite secondsLeft_div. reflexivity.
Qed.

Lemma strictNeq_pick (r : Z) (old : num) :
  (if strictNeq (Int r) old then Int r else old) = Int r.
Proof.
  destruct old as [z|]; cbn [strictNeq]; [|reflexivity].
  destruct (Z.eqb_spec r z); cbn [negb]; congruence.
Qed.

(** What one tick of a running timer does, by the seconds left. *)
Lemma tick_running now w endTime :
  timerRunning (fields w) = true ->
  timerEndTime (fields w) = Some (Int endTime) ->
  tick now w =
  if secondsLeft endTime now <=? 0 then completeTimer now w
  else
    mkWorld (mkFields (workTime (fields w)) (breakTime (fields w))
                      (Int (secondsLeft endTime now))
                      (isWorkSession (fields w)) true
                      (Some (Int endTime)) (Some (nextId (loop w))))
            (mkLoop (frames (loop w) ++ [nextId (loop w)])
                    (timeouts (loop w)) (Pos.succ (nextId (loop w)))).
Proof.
  intros Hrun Hend. unfold tick. rewrite Hrun, Hend. cbn [negb ofNullable].
  rewrite remainingSec_secondsLeft. cbn [le].
  destruct (secondsLeft endTime now <=? 0); [reflexivity|].
  rewrite strictNeq_pick. reflexivity.
Qed.

Lemma startTimer_stopped now w :
  timerRunning (fields w) = false ->
  startTimer now w =
  mkWorld (mkFields (workTime (fields w)) (breakTime (fields w))
                    (timeLeft (fields w)) (isWorkSession (fields w)) true
                    (Some (add (Int now) (mul (timeLeft (fields w)) (Int 1000))))
                    (Some (nextId (loop w))))
          (mkLoop (frames (loop w) ++ [nextId (loop w)])
                  (timeouts (loop w)) (Pos.succ (nextId (loop w)))).
Proof. intros Hrun. unfold startTimer. rewrite Hrun. reflexivity. Qed.

Lemma completeTimer_running now w :
  let w' := completeTimer now w in
  timerRunning (fields w') = false /\
  isWorkSession (fields w') = negb (isWorkSession (fields w)) /\
  timeLeft (fields w') =
    (if isWorkSession (fields w') then workTime (fields w)
     else breakTime (fields w)) /\
  workTime (fields w') = workTime (fields w) /\
  breakTime (fields w') = breakTime (fields w) /\
  timeouts (loop w') = timeouts (loop w) ++ [now + 2000] /\
  (timerRunning (fields w) = true ->
   timerAnimationFrame (fields w') = None /\
   frames (loop w') =
     match timerAnimationFrame (fields w) with
     | Some id => filter (fun i => negb (Pos.eqb i id)) (frames (loop w))
     | None => frames (loop w)
     end).
Proof.
  unfold completeTimer, pauseTimer.
  destruct (timerRunning (fields w)) eqn:Hrun;
    cbn [negb fields loop timerRunning isWorkSession timeLeft workTime
         breakTime timerAnimationFrame setTimeout timeouts frames].
  - destruct (timerAnimationFrame (fields w));
      do 6 (split; [reflexivity|]); intros _; split; reflexivity.
  - split; [exact Hrun|]. do 5 (split; [reflexivity|]).
    intros Habs. discriminate Habs.
Qed.

Lemma frame_ticking now w endTime :
  ticking endTime w ->
  handle now Frame w =
  if secondsLeft endTime now <=? 0 then completeTimer now (popFrame w)
  else
    mkWorld (mkFields (workTime (fields w)) (breakTime (fields w))
                      (Int (secondsLeft endTime now))
                      (isWorkSession (fields w)) true
                      (Some (Int endTime)) (Some (nextId (loop w))))
            (mkLoop (tl (frames (loop w)) ++ [nextId (loop w)])
                    (timeouts (loop w)) (Pos.succ (nextId (loop w)))).
Proof.
  intros (Hrun & Hend & Hfr). cbn [handle].
  destruct (frames (loop w)) as [|i rest] eqn:E; [congruence|].
  rewrite (tick_running now (popFrame w) endTime) by assumption.
  unfold popFrame. rewrite E. reflexivity.
Qed.

Lemma last_cons_default (A : Type) (x : A) (l : list A) (d : A) :
  last (x :: l) d = last l x.
Proof.
  revert x d. induction l as [|y l IH]; intros x d; [reflexivity|].
  change (last (x :: y :: l) d) with (last (y :: l) d).
  rewrite !IH. reflexivity.
Qed.

Lemma frames_keep_ticking endTime ts : forall w,
  ticking endTime w ->
  Forall (fun t => 0 < secondsLeft endTime t) ts ->
  let wn := run (framesAt ts) w in
  ticking endTime wn /\
  timeLeft (fields wn) =
    last (map (fun t => Int (secondsLeft endTime t)) ts) (timeLeft (fields w)) /\
  isWorkSession (fields wn) = isWorkSession (fields w) /\
  workTime (fields wn) = workTime (fields w) /\
  breakTime (fields wn) = breakTime (fields w) /\
  timeouts (loop wn) = timeouts (loop w).
Proof.
  induction ts as [|t ts IH]; intros w Htick Hall.
  - cbn. repeat split; try reflexivity; apply Htick.
  - inversion Hall as [|? ? Ht Hts]; subst.
    cbn [framesAt map run]. fold (framesAt ts).
    rewrite (frame_ticking t w endTime Htick).
    destruct (Z.leb_spec (secondsLeft endTime t) 0) as [Hle|_]; [lia|].
    match goal with |- context [run (framesAt ts) ?w1] => set (w' := w1) end.
    assert (Htick' : ticking endTime w').
    { unfold ticking, w'. cbn. repeat split; try reflexivity.
      destruct (tl (frames (loop w))); discriminate. }
    destruct (IH w' Htick' Hts) as (H1 & H2 & H3 & H4 & H5 & H6).
    cbv zeta. repeat split; try apply H1.
    + rewrite H2. unfold w'. cbn [fields timeLeft map].
      rewrite last_cons_default. reflexivity.
    + rewrite H3. reflexivity.
    + rewrite H4. reflexivity.
    + rewrite H5. reflexivity.
    + rewrite H6. reflexivity.
Qed.

Lemma secondsLeft_bound endTime now bound :
  0 <= bound -> endTime - now <= 1000 * bound ->
  0 <= secondsLeft endTime now <= bound.
Proof.
  intros Hb H. rewrite secondsLeft_div.
  Z.to_euclidean_division_equations. lia.
Qed.

(** One step of a one-minute timer left alone. *)
Lemma alternating_step c now e w :
  alternating c w -> c <= now -> e = Frame \/ e = Timeout ->
  let w' := handle now e w in
  alternating now w' /\
  (isWorkSession (fields w') <> isWorkSession (fields w) ->
   e = Frame /\ timerRunning (fields w) = true /\
   timerRunning (fields w') = false /\ timeLeft (fields w') = Int 60 /\
   timeouts (loop w') = [now + 2000]).
Proof.
  intros (Hw & Hb & Hst) Hc He.
  destruct Hst as [(endTime & r & id & Hrun & Hend & Hclose & Hleft & Hr & Hfr & Hto)
                  |(due & Hrun & Hleft & Haf & Hfr & Hto & Hdue)].
  - destruct He as [-> | ->].
    + assert (Htick : ticking endTime w)
        by (unfold ticking; rewrite Hfr; repeat split; [assumption..|discriminate]).
      cbv zeta. rewrite (frame_ticking now w endTime Htick).
      destruct (Z.leb_spec (secondsLeft endTime now) 0) as [Hz|Hpos].
      * destruct (completeTimer_running now (popFrame w))
          as (H1 & H2 & H3 & H4 & H5 & H6 & H7).
        cbv zeta in H1, H2, H3, H4, H5, H6, H7.
        cbn [popFrame fields loop timeouts frames] in *.
        rewrite Hto in H6. cbn [app] in H6.
        assert (H60 : timeLeft (fields (completeTimer now (popFrame w))) = Int 60).
        { rewrite H3, Hw, Hb.
          destruct (isWorkSession (fields (completeTimer now (popFrame w))));
            reflexivity. }
        split.
        -- split; [congruence|]. split; [congruence|]. right.
           exists (now + 2000). destruct (H7 Hrun) as (H8 & H9).
           repeat split; try assumption; try lia.
           rewrite H9, Hfr. cbn [tl].
           destruct (timerAnimationFrame (fields w)); reflexivity.
        -- intros _. repeat split; assumption.
      * cbn [fields loop isWorkSession workTime breakTime]. split.
        -- split; [assumption|]. split; [assumption|]. left.
           exists endTime, (secondsLeft endTime now), (nextId (loop w)).
           pose proof (secondsLeft_bound endTime now 60 ltac:(lia) ltac:(lia)).
           cbn. rewrite Hfr, Hto. repeat split; try reflexivity; lia.
        -- intros Hne. congruence.
    + cbv zeta. cbn [handle]. rewrite Hto. split; [|congruence].
      split; [assumption|]. split; [assumption|]. left.
      exists endTime, r, id. repeat split; try assumption; lia.
  - destruct He as [-> | ->].
    + cbv zeta. cbn [handle]. rewrite Hfr. split; [|congruence].
      split; [assumption|]. split; [assumption|]. right.
      exists due. repeat split; try assumption; lia.
    + cbv zeta. cbn [handle]. rewrite Hto.
      destruct (Z.leb_spec due now) as [Hd|Hd].
      * rewrite startTimer_stopped by exact Hrun.
        cbn [popTimeout fields loop isWorkSession workTime breakTime
             timeLeft frames timeouts nextId].
        split; [|congruence].
        split; [assumption|]. split; [assumption|]. left.
        exists (now + 60 * 1000), 60, (nextId (loop w)).
        cbn. rewrite Hleft, Hfr, Hto. cbn. repeat split; lia.
      * split; [|congruence].
        split; [assumption|]. split; [assumption|]. right.
        exists due. repeat split; try assumption; lia.
Qed.

Lemma alternating_run tr : forall c w,
  alternating c w -> chronological c tr = true -> unattended tr = true ->
  atEveryFlip resetForNextPhase tr w /\ exists c', alternating c' (run tr w).
Proof.
  induction tr as [|[now e] tr IH]; intros c w Halt Hchr Hun.
  - split; [exact I|]. exists c. exact Halt.
  - cbn [chronological] in Hchr. apply andb_prop in Hchr as [Hle Hchr].
    apply Z.leb_le in Hle.
    assert (He : e = Frame \/ e = Timeout)
      by (destruct e; try discriminate Hun; auto).
    assert (Hun' : unattended tr = true) by (destruct He as [-> | ->]; exact Hun).
    destruct (alternating_step c now e w Halt Hle He) as [Halt' Hflip].
    destruct (IH now _ Halt' Hchr Hun') as [Hflips Hend].
    cbn [atEveryFlip run]. split; [|exact Hend]. split; [|exact Hflips].
    intros Hne. apply Hflip in Hne. unfold resetForNextPhase. tauto.
Qed.

Lemma flips_parity tr : forall w,
  isWorkSession (fields (run tr w)) =
  if Nat.even (flips tr w) then isWorkSession (fields w)
  else negb (isWorkSession (fields w)).
Proof.
  induction tr as [|[now e] tr IH]; intros w; [reflexivity|].
  cbn [run flips]. rewrite IH.
  destruct (isWorkSession (fields w)), (isWorkSession (fields (handle now e w)));
    cbn [Bool.eqb Nat.add]; try reflexivity;
    rewrite Nat.even_succ, <- Nat.negb_even;
    destruct (Nat.even (flips tr (handle now e w))); reflexivity.
Qed.

Lemma startTimer_oneMinute t0 :
  startTimer t0 oneMinute =
  mkWorld (mkFields (Int 60) (Int 60) (Int 60) true true
                    (Some (Int (t0 + 60000))) (Some 1%positive))
          (mkLoop [1%positive] [] 2).
Proof. reflexivity. Qed.

Lemma alternating_started t0 : alternating t0 (startTimer t0 oneMinute).
Proof.
  rewrite startTimer_oneMinute. split; [reflexivity|]. split; [reflexivity|].
  left. exists (t0 + 60000), 60, 1%positive. cbn. repeat split; lia.
Qed.

Lemma secondsLeft_at_end endTime : secondsLeft endTime endTime = 0.
Proof.
  rewrite secondsLeft_div. replace (endTime - endTime + 500) with 500 by lia.
  reflexivity.
Qed.

(** A frame at the end time and the timeout two seconds later take a
    started one-minute timer to the start of the other phase. *)
Lemma one_cycle session t id :
  run [(t + 60000, Frame); (t + 62000, Timeout)] (started session t id)
  = started (negb session) (t + 62000) (Pos.succ id) /\
  flips [(t + 60000, Frame); (t + 62000, Timeout)] (started session t id)
  = 1%nat.
Proof.
  assert (Htick : ticking (t + 60000) (started session t id))
    by (unfold ticking, started; cbn; repeat split; discriminate).
  assert (Hframe : handle (t + 60000) Frame (started session t id) =
            mkWorld (mkFields (Int 60) (Int 60) (Int 60) (negb session) false
                              (Some (Int (t + 60000))) None)
                    (mkLoop [] [t + 60000 + 2000] (Pos.succ id))).
  { rewrite (frame_ticking _ _ _ Htick), secondsLeft_at_end.
    cbn. destruct session; reflexivity. }
  assert (Hdue : (t + 60000 + 2000 <=? t + 62000) = true)
    by (apply Z.leb_le; lia).
  cbn [run flips]. rewrite Hframe. cbn [handle loop timeouts].
  rewrite Hdue. cbn. split.
  - unfold started. reflexivity.
  - destruct session; reflexivity.
Qed.

Lemma cycles_run k : forall session t id,
  let tr := cycles k t in
  let w := started session t id in
  chronological t tr = true /\ unattended tr = true /\
  flips tr w = k /\
  exists id',
    run tr w = started (if Nat.even k then session else negb session)
                       (t + 62000 * Z.of_nat k) id'.
Proof.
  induction k as [|k IH]; intros session t id tr w.
  - do 3 (split; [reflexivity|]). exists id. subst tr w.
    cbn [Nat.even run cycles]. f_equal. lia.
  - destruct (one_cycle session t id) as [Hrun Hflips].
    destruct (IH (negb session) (t + 62000) (Pos.succ id))
      as (Hchr & Hun & Hfl & id' & Hend).
    unfold tr, w. change (cycles (S k) t) with
      ([(t + 60000, Frame); (t + 62000, Timeout)] ++ cycles k (t + 62000)).
    split; [|split; [|split]].
    + cbn [app chronological]. rewrite Hchr.
      replace (t <=? t + 60000) with true by (symmetry; apply Z.leb_le; lia).
      replace (t + 60000 <=? t + 62000) with true
        by (symmetry; apply Z.leb_le; lia).
      reflexivity.
    + cbn [app unattended]. exact Hun.
    + cbn [app flips] in Hflips |- *. cbn [run] in Hrun.
      rewrite Hrun in Hflips |- *. rewrite Hfl.
      destruct (Bool.eqb _ _), (Bool.eqb _ _); cbn in Hflips |- *; lia.
    + exists id'. cbn [app run] in Hrun |- *. rewrite Hrun, Hend.
      rewrite Nat.even_succ, <- Nat.negb_even.
      replace (t + 62000 + 62000 * Z.of_nat k)
        with (t + 62000 * Z.of_nat (S k)) by lia.
      destruct (Nat.even k), session; reflexivity.
Qed.

Lemma last_map_default (A B : Type) (g : A -> B) (l : list A) (d : A) :
  last (map g l) (g d) = g (last l d).
Proof.
  induction l as [|x l IH]; [reflexivity|].
  cbn [map]. rewrite !last_cons_default.
  clear IH. revert x. induction l as [|y l IH]; intros x; [reflexivity|].
  cbn [map]. rewrite !last_cons_default. apply IH.
Qed.

(** C2. [startTimer] leaves a running timer as it is.  On a stopped
    timer with [left] seconds remaining it sets the end time to
    [now + left * 1000] and requests a frame; every tick after that, for
    as long as a positive number of seconds is left, stores
    [max(0, round((endTime - t) / 1000))] as the remaining seconds, and
    the tick at which this number is 0 is [completeTimer]. *)
Theorem startTimer_then_ticks (now : Z) (w : World) :
  (timerRunning (fields w) = true -> startTimer now w = w) /\
  (forall left ts t,
     timerRunning (fields w) = false ->
     timeLeft (fields w) = Int left ->
     let endTime := now + left * 1000 in
     let w1 := startTimer now w in
     timerRunning (fields w1) = true /\
     timerEndTime (fields w1) = Some (Int endTime) /\
     timeLeft (fields w1) = Int left /\
     frames (loop w1) = frames (loop w) ++ [nextId (loop w)] /\
     (Forall (fun t' => 0 < secondsLeft endTime t') ts ->
      let wn := run (framesAt ts) w1 in
      timerRunning (fields wn) = true /\
      timerEndTime (fields wn) = Some (Int endTime) /\
      timeLeft (fields wn) = Int (last (map (secondsLeft endTime) ts) left) /\
      (0 < secondsLeft endTime t ->
         timeLeft (fields (handle t Frame wn)) = Int (secondsLeft endTime t) /\
         timerRunning (fields (handle t Frame wn)) = true /\
         timerEndTime (fields (handle t Frame wn)) = Some (Int endTime)) /\
      (secondsLeft endTime t = 0 ->
         handle t Frame wn = completeTimer t (popFrame wn)))).
Proof.
  split.
  - intros Hrun. unfold startTimer. rewrite Hrun. reflexivity.
  - intros left ts t Hrun Hleft endTime w1.
    assert (Hw1 := startTimer_stopped now w Hrun). fold w1 in Hw1.
    rewrite Hleft in Hw1. cbn [mul add] in Hw1. fold endTime in Hw1.
    assert (Htick : ticking endTime w1).
    { rewrite Hw1. unfold ticking. cbn. repeat split.
      destruct (frames (loop w)); discriminate. }
    split; [apply Htick|]. split; [apply Htick|].
    split; [rewrite Hw1; reflexivity|]. split; [rewrite Hw1; reflexivity|].
    intros Hall wn.
    destruct (frames_keep_ticking endTime ts w1 Htick Hall)
      as (Htn & Hln & _). fold wn in Htn, Hln.
    split; [apply Htn|]. split; [apply Htn|]. split.
    { rewrite Hln, Hw1. cbn [fields timeLeft].
      rewrite <- (last_map_default _ _ Int), map_map. reflexivity. }
    rewrite (frame_ticking t wn endTime Htn). split.
    + intros Hpos.
      destruct (Z.leb_spec (secondsLeft endTime t) 0); [lia|].
      cbn. repeat split.
    + intros Hzero. rewrite Hzero. reflexivity.
Qed.

(** The default timer started at time 0: frames at 16 ms and 1 s keep it
    running, the frame at 40 min completes the session. *)
Lemma startTimer_then_ticks_witness :
  let wn := run (framesAt [16; 1000]) (startTimer 0 init) in
  timeLeft (fields wn) = Int 2399 /\
  handle 2400000 Frame wn = completeTimer 2400000 (popFrame wn).
Proof.
  destruct (startTimer_then_ticks 0 init) as [_ Hstart].
  destruct (Hstart 2400 [16; 1000] 2400000 eq_refl eq_refl)
    as (_ & _ & _ & _ & Hticks).
  assert (Hall : Forall (fun t' => 0 < secondsLeft (0 + 2400 * 1000) t')
                        [16; 1000])
    by (repeat constructor).
  destruct (Hticks Hall) as (_ & _ & Hleft & _ & Hdone).
  split; [exact Hleft|]. apply Hdone. reflexivity.
Defined.

(** C3. [completeTimer] stops the timer, flips the phase flag, leaves
    both durations as they were configured, sets the remaining time to
    the configured duration of the new phase (the break duration after a
    work phase, the work duration after a break) and leaves one
    timeout due 2000 ms later; that timeout cannot run earlier, and when
    it runs it is [startTimer] for the new phase, with that duration
    remaining and the durations still as configured.  With one-minute work
    and break phases and no click after the start, whatever the times of
    the frames and timeouts: every flip leaves the timer stopped with 60
    seconds remaining and the next start due two seconds later, and the
    timer is always either counting down or waiting for that start, the
    phase being work after an even number of flips and break after an odd
    one.  The schedule with a frame at the end of each phase and the
    timeout two seconds later goes through any number [k] of phases and
    ends in a running timer with 60 seconds remaining. *)
Theorem phases_alternate :
  (forall now w,
     let w' := completeTimer now w in
     timerRunning (fields w') = false /\
     isWorkSession (fields w') = negb (isWorkSession (fields w)) /\
     timeLeft (fields w') =
       (if isWorkSession (fields w') then workTime (fields w')
        else breakTime (fields w')) /\
     timeouts (loop w') = timeouts (loop w) ++ [now + 2000] /\
     workTime (fields w') = workTime (fields w) /\
     breakTime (fields w') = breakTime (fields w) /\
     timeLeft (fields w') =
       (if isWorkSession (fields w) then breakTime (fields w)
        else workTime (fields w))) /\
  (forall now w t,
     timeouts (loop w) = [] ->
     let w' := completeTimer now w in
     (t < now + 2000 -> handle t Timeout w' = w') /\
     (now + 2000 <= t ->
      handle t Timeout w' = startTimer t (popTimeout w') /\
      timerRunning (fields (handle t Timeout w')) = true /\
      isWorkSession (fields (handle t Timeout w'))
        = negb (isWorkSession (fields w)) /\
      timeLeft (fields (handle t Timeout w')) = timeLeft (fields w') /\
      workTime (fields (handle t Timeout w')) = workTime (fields w) /\
      breakTime (fields (handle t Timeout w')) = breakTime (fields w) /\
      timeLeft (fields (handle t Timeout w')) =
        (if isWorkSession (fields w) then breakTime (fields w)
         else workTime (fields w)))) /\
  (forall t0 tr,
     chronological t0 tr = true -> unattended tr = true ->
     let w1 := startTimer t0 oneMinute in
     atEveryFlip resetForNextPhase tr w1 /\
     (exists c, alternating c (run tr w1)) /\
     isWorkSession (fields (run tr w1)) = Nat.even (flips tr w1)) /\
  (forall k t0,
     let tr := cycles k t0 in
     let w1 := startTimer t0 oneMinute in
     chronological t0 tr = true /\ unattended tr = true /\
     flips tr w1 = k /\
     isWorkSession (fields (run tr w1)) = Nat.even k /\
     timerRunning (fields (run tr w1)) = true /\
     timeLeft (fields (run tr w1)) = Int 60 /\
     timerEndTime (fields (run tr w1))
       = Some (Int (t0 + 62000 * Z.of_nat k + 60000))).
Proof.
  split; [|split; [|split]].
  - intros now w w'.
    destruct (completeTimer_running now w) as (H1 & H2 & H3 & H4 & H5 & H6 & _).
    fold w' in H1, H2, H3, H4, H5, H6.
    split; [exact H1|]. split; [exact H2|].
    split; [rewrite H3, H4, H5; reflexivity|].
    split; [exact H6|]. split; [exact H4|]. split; [exact H5|].
    rewrite H3, H2. destruct (isWorkSession (fields w)); reflexivity.
  - intros now w t Hto w'.
    destruct (completeTimer_running now w) as (H1 & H2 & H3 & H4 & H5 & H6 & _).
    fold w' in H1, H2, H3, H4, H5, H6. rewrite Hto in H6. cbn [app] in H6.
    split.
    + intros Hlt. cbn [handle]. rewrite H6.
      destruct (Z.leb_spec (now + 2000) t); [lia|reflexivity].
    + intros Hge.
      assert (Hh : handle t Timeout w' = startTimer t (popTimeout w')).
      { cbn [handle]. rewrite H6.
        destruct (Z.leb_spec (now + 2000) t); [reflexivity|lia]. }
      rewrite Hh, startTimer_stopped by exact H1.
      cbn [fields popTimeout timerRunning isWorkSession timeLeft workTime
           breakTime].
      split; [reflexivity|]. split; [reflexivity|]. split; [exact H2|].
      split; [reflexivity|]. split; [exact H4|]. split; [exact H5|].
      rewrite H3, H2. destruct (isWorkSession (fields w)); reflexivity.
  - intros t0 tr Hchr Hun w1.
    destruct (alternating_run tr t0 w1 (alternating_started t0) Hchr Hun)
      as [Hflips Hend].
    split; [exact Hflips|]. split; [exact Hend|].
    rewrite flips_parity. unfold w1. rewrite startTimer_oneMinute. cbn.
    destruct (Nat.even _); reflexivity.
  - intros k t0 tr w1.
    assert (Hw1 : w1 = started true t0 1) by reflexivity.
    destruct (cycles_run k true t0 1) as (Hchr & Hun & Hfl & id' & Hend).
    rewrite Hw1. fold tr in Hchr, Hun, Hfl, Hend.
    split; [exact Hchr|]. split; [exact Hun|]. split; [exact Hfl|].
    rewrite Hend. cbn. repeat split. destruct (Nat.even k); reflexivity.
Qed.

(** Two phases of the one-minute timer started at time 0: completion at
    60 s, restart at 62 s, completion at 122 s, restart at 124 s.  And
    the fresh timer of 40 and 5 minutes: the work phase completed at
    2400 s leaves the 300 seconds of the break, which the restart at
    2402 s counts down. *)
Lemma phases_alternate_witness :
  let tr := [(60000, Frame); (62000, Timeout); (122000, Frame);
             (124000, Timeout)] in
  chronological 0 tr = true /\ unattended tr = true /\
  isWorkSession (fields (run tr (startTimer 0 oneMinute))) = true /\
  handle 61999 Timeout (completeTimer 60000 (popFrame (startTimer 0 oneMinute)))
  = completeTimer 60000 (popFrame (startTimer 0 oneMinute)) /\
  timeLeft (fields (completeTimer 2400000 (popFrame (startTimer 0 init))))
  = Int 300 /\
  workTime (fields (completeTimer 2400000 (popFrame (startTimer 0 init))))
  = Int 2400 /\
  timeLeft (fields (handle 2402000 Timeout
                      (completeTimer 2400000 (popFrame (startTimer 0 init)))))
  = Int 300.
Proof.
  destruct phases_alternate as (Hdone & Hdelay & Hsafe & _).
  cbv zeta. split; [reflexivity|]. split; [reflexivity|]. split; [|split].
  - destruct (Hsafe 0 [(60000, Frame); (62000, Timeout); (122000, Frame);
                       (124000, Timeout)] eq_refl eq_refl) as (_ & _ & Hpar).
    exact Hpar.
  - destruct (Hdelay 60000 (popFrame (startTimer 0 oneMinute)) 61999 eq_refl)
      as [Hearly _].
    apply Hearly. reflexivity.
  - destruct (Hdone 2400000 (popFrame (startTimer 0 init)))
      as (_ & _ & _ & _ & Hwork & _ & Hleft).
    destruct (Hdelay 2400000 (popFrame (startTimer 0 init)) 2402000 eq_refl)
      as [_ Hlate].
    destruct (Hlate ltac:(lia)) as (_ & _ & _ & _ & _ & _ & Hrestart).
    split; [exact Hleft|]. split; [exact Hwork | exact Hrestart].
Defined.



(** One event keeps the bounds, a Save being in range and clicked on a
    stopped timer. *)
(** Evaluation of the handlers that leaves integer arithmetic alone. *)
Ltac wsimpl := cbn -[Z.mul Z.max Z.add Z.sub Z.leb Z.div].








(** C5. Save on a stopped timer stores both durations, 60 seconds per
    minute read from the fields, and sets the remaining time to the new
    duration of the current phase; the phase and the schedule stay as
    they are.  With 25 and 5 in the fields and the work phase current,
    1500 seconds remain. *)
Theorem saveTimerSettings_while_stopped (w : World) (work brk : jsstring) :
  timerRunning (fields w) = false ->
  let w' := saveTimerSettings (Some work) (Some brk) w in
  workTime (fields w') = mul (parseInt work) (Int 60) /\
  breakTime (fields w') = mul (parseInt brk) (Int 60) /\
  timeLeft (fields w') =
    (if isWorkSession (fields w) then workTime (fields w')
     else breakTime (fields w')) /\
  isWorkSession (fields w') = isWorkSession (fields w) /\
  timerRunning (fields w') = false /\ loop w' = loop w /\
  (forall m k, parseInt work = Int m -> parseInt brk = Int k ->
     workTime (fields w') = Int (m * 60) /\
     breakTime (fields w') = Int (k * 60) /\
     timeLeft (fields w') =
       Int (if isWorkSession (fields w) then m * 60 else k * 60)) /\
  (isWorkSession (fields w) = true ->
   timeLeft (fields (saveTimerSettings (Some (lit "25")) (Some (lit "5")) w))
   = Int 1500).
Proof.
  intros Hrun w'. unfold w', saveTimerSettings. rewrite Hrun.
  cbn [negb setFields fields loop workTime breakTime timeLeft isWorkSession
       timerRunning].
  do 6 (split; [reflexivity|]). split.
  - intros m k Hm Hk. rewrite Hm, Hk. cbn [mul].
    destruct (isWorkSession (fields w)); repeat split; reflexivity.
  - intros Hwork. rewrite Hwork. reflexivity.
Qed.

(** 25 and 5 saved into the fresh timer. *)
Lemma saveTimerSettings_while_stopped_witness :
  timeLeft (fields (saveTimerSettings (Some (lit "25")) (Some (lit "5")) init))
  = Int 1500.
Proof.
  destruct (saveTimerSettings_while_stopped init (lit "25") (lit "5") eq_refl)
    as (_ & _ & _ & _ & _ & _ & _ & H1500).
  apply H1500. reflexivity.
Defined.

(** C10. Save stores [parseInt(value, 10) * 60] for both fields whatever
    they hold, and a stopped timer takes the stored duration of the
    current phase as its remaining time.  A field without digits, empty
    or not, gives [NaN]; 500 and 90, beyond the declared maxima, give
    30000 and 5400 seconds; 0 and -5, below the declared minima, give 0
    and -300 seconds. *)
Theorem saveTimerSettings_unchecked :
  (forall w work brk,
     let w' := saveTimerSettings (Some work) (Some brk) w in
     workTime (fields w') = mul (parseInt work) (Int 60) /\
     breakTime (fields w') = mul (parseInt brk) (Int 60) /\
     timeLeft (fields w') =
       if timerRunning (fields w) then timeLeft (fields w)
       else if isWorkSession (fields w) then workTime (fields w')
       else breakTime (fields w')) /\
  (let w' := saveTimerSettings (Some (lit "abc")) (Some (lit "")) init in
   workTime (fields w') = NaN /\ breakTime (fields w') = NaN /\
   timeLeft (fields w') = NaN) /\
  (let w' := saveTimerSettings (Some (lit "500")) (Some (lit "90")) init in
   inRange (lit "500") (lit "90") = false /\
   workTime (fields w') = Int 30000 /\ breakTime (fields w') = Int 5400 /\
   timeLeft (fields w') = Int 30000) /\
  (let w' := saveTimerSettings (Some (lit "0")) (Some (lit "-5")) init in
   inRange (lit "0") (lit "-5") = false /\
   workTime (fields w') = Int 0 /\ breakTime (fields w') = Int (-300) /\
   timeLeft (fields w') = Int 0).
Proof.
  split.
  - intros w work brk w'. unfold w', saveTimerSettings.
    cbn [setFields fields workTime breakTime timeLeft].
    destruct (timerRunning (fields w)); repeat split; reflexivity.
  - repeat split; reflexivity.
Qed.

End TimerFacts.

Module JSStringFacts.
Import JSString.

Lemma trimStart_nil_iff s :
  trimStart s = [] <-> forallb isWhiteSpace s = true.
Proof.
  induction s as [|c s IH]; cbn [trimStart forallb]; [tauto|].
  destruct (isWhiteSpace c); cbn [andb]; [exact IH|].
  split; discriminate.
Qed.

Lemma trimStart_head s c r :
  trimStart s = c :: r -> isWhiteSpace c = false.
Proof.
  induction s as [|d s IH]; cbn [trimStart]; [discriminate|].
  destruct (isWhiteSpace d) eqn:E; [exact IH|].
  intros H. injection H as -> _. exact E.
Qed.

Lemma forallb_rev (A : Type) (f : A -> bool) (l : list A) :
  forallb f (rev l) = forallb f l.
Proof.
  induction l as [|x l IH]; [reflexivity|].
  cbn [rev forallb]. rewrite forallb_app, IH. cbn [forallb].
  rewrite andb_true_r. apply andb_comm.
Qed.

(** [trim] leaves nothing exactly of the strings made of white space. *)
Lemma trim_nil_iff s : trim s = [] <-> forallb isWhiteSpace s = true.
Proof.
  rewrite <- trimStart_nil_iff. unfold trim, trimEnd.
  destruct (trimStart s) as [|c r] eqn:E; [cbn; tauto|].
  split; [|discriminate]. intros H.
  apply (f_equal (@rev N)) in H. rewrite rev_involutive in H.
  change (rev (@nil N)) with (@nil N) in H.
  apply trimStart_nil_iff in H. rewrite forallb_rev in H.
  cbn [forallb] in H. rewrite (trimStart_head s c r E) in H. discriminate H.
Qed.


End JSStringFacts.

Module TasksFacts.
Import JSString JSStringFacts Tasks.

Lemma falsy_nil s : falsy s = true <-> s = [].
Proof. destruct s; cbn; split; congruence. Qed.

(** C7. [addTask] takes the trimmed content of the input field.  When
    nothing is left of it, which is exactly when the field holds white
    space only, the state stays as it is.  Otherwise one task with the
    current time as id, the trimmed text and [completed = false] is
    appended at the end and the field is cleared.  A list in which no
    task has an empty text stays such a list. *)
Theorem addTask_appends_trimmed (now : Z) (st : State) :
  let text := trim (input st) in
  (text = [] <-> forallb isWhiteSpace (input st) = true) /\
  (text = [] -> addTask now st = st) /\
  (text <> [] ->
   tasks (addTask now st) = tasks st ++ [mkTask now text false] /\
   length (tasks (addTask now st)) = S (length (tasks st)) /\
   input (addTask now st) = []) /\
  (Forall (fun t => Tasks.text t <> []) (tasks st) ->
   Forall (fun t => Tasks.text t <> []) (tasks (addTask now st))).
Proof.
  intros text. split; [apply trim_nil_iff|].
  unfold addTask. fold text. destruct text as [|c r] eqn:E; cbn [falsy].
  - split; [reflexivity|]. split; [congruence|]. tauto.
  - split; [discriminate|]. split.
    + intros _. cbn [tasks input]. rewrite length_app, Nat.add_comm.
      repeat split.
    + intros Hall. cbn [tasks]. apply Forall_app. split; [exact Hall|].
      constructor; [cbn; discriminate|constructor].
Qed.

(** The three inputs of the spec's example, on the empty list. *)
Lemma addTask_appends_trimmed_witness :
  tasks (add (lit "") 1 init) = [] /\
  tasks (add (lit "   ") 2 init) = [] /\
  tasks (add (lit " buy milk ") 3 init) = [mkTask 3 (lit "buy milk") false].
Proof.
  split; [|split].
  - destruct (addTask_appends_trimmed 1 (typeText (lit "") init))
      as (_ & Hnoop & _).
    unfold add. rewrite Hnoop; reflexivity.
  - destruct (addTask_appends_trimmed 2 (typeText (lit "   ") init))
      as (_ & Hnoop & _).
    unfold add. rewrite Hnoop; reflexivity.
  - destruct (addTask_appends_trimmed 3 (typeText (lit " buy milk ") init))
      as (_ & _ & Happend & _).
    destruct Happend as (Htasks & _); [discriminate|].
    unfold add. rewrite Htasks. reflexivity.
Defined.

(** [deleteTask] removes as many entries as carry the id. *)
Lemma deleteTask_length taskId st :
  (length (tasks (deleteTask taskId st)) + occurrences taskId (tasks st)
   = length (tasks st))%nat.
Proof.
  unfold deleteTask, occurrences. cbn [tasks].
  induction (tasks st) as [|t ts IH]; [reflexivity|].
  cbn [filter]. destruct (id t =? taskId); cbn [negb length]; lia.
Qed.

Lemma deleteTask_absent taskId st :
  occurrences taskId (tasks st) = 0%nat -> deleteTask taskId st = st.
Proof.
  destruct st as [ts inp]. unfold deleteTask, occurrences. cbn [tasks input].
  intros H. f_equal. induction ts as [|t ts IH]; [reflexivity|].
  cbn [filter] in H |- *. destruct (id t =? taskId); cbn [negb].
  - discriminate H.
  - f_equal. exact (IH H).
Qed.

Lemma filter_id_absent taskId ts :
  ~ In taskId (map id ts) ->
  filter (fun t => id t =? taskId) ts = [] /\
  filter (fun t => negb (id t =? taskId)) ts = ts.
Proof.
  induction ts as [|u us IH]; intros Hnotin; [split; reflexivity|].
  cbn [map In] in Hnotin. cbn [filter].
  destruct (Z.eqb_spec (id u) taskId) as [E|E]; [tauto|].
  destruct IH as [IH1 IH2]; [tauto|]. cbn [negb]. rewrite IH1, IH2.
  split; reflexivity.
Qed.

(** With pairwise distinct ids, [deleteTask] is the removal of the
    first, and only, match. *)
Lemma deleteTask_distinct_ids taskId st :
  NoDup (map id (tasks st)) ->
  tasks (deleteTask taskId st) = removeFirst taskId (tasks st) /\
  (occurrences taskId (tasks st) <= 1)%nat.
Proof.
  unfold deleteTask, occurrences. cbn [tasks].
  induction (tasks st) as [|t ts IH]; intros Hnd;
    [split; [reflexivity|cbn; lia]|].
  cbn [map] in Hnd. inversion Hnd as [|? ? Hnotin Hnd']; subst.
  destruct (IH Hnd') as [IH1 IH2].
  cbn [filter removeFirst]. destruct (Z.eqb_spec (id t) taskId) as [E|E];
    cbn [negb length].
  - rewrite E in Hnotin.
    destruct (filter_id_absent taskId ts Hnotin) as [Hnone Hall].
    rewrite Hnone, Hall. split; [reflexivity|cbn; lia].
  - split; [f_equal; exact IH1|exact IH2].
Qed.

(** C6. Two tasks added at the same reading of the clock share the id.
    [deleteTask] with that id removes both of them where the removal of
    the first match would keep the second. *)
Theorem deleteTask_removes_every_match :
  let st := add (lit "b") 5 (add (lit "a") 5 init) in
  tasks st = [mkTask 5 (lit "a") false; mkTask 5 (lit "b") false] /\
  tasks (deleteTask 5 st) = [] /\
  removeFirst 5 (tasks st) = [mkTask 5 (lit "b") false] /\
  (length (tasks st) - length (tasks (deleteTask 5 st)) = 2)%nat.
Proof. cbv zeta. repeat split; reflexivity. Qed.

End TasksFacts.

Module ViewFacts.
Import JSString View.

(** A paragraph no pending removal aims at outlives every removal. *)
Lemma shows_after_removals m times : forall v,
  shows m v -> ~ In (handle m) (map snd (removals v)) ->
  shows m (removalsFire times v).
Proof.
  induction times as [|t times IH]; intros v Hshow Hfree; [exact Hshow|].
  cbn [removalsFire]. apply IH.
  - unfold removalFires. destruct (removals v) as [|[due target] rest] eqn:E;
      [exact Hshow|].
    destruct (due <=? t); [|exact Hshow].
    destruct Hshow as (msgs & Hsec & Hin). exists
      (filter (fun m0 => negb (Pos.eqb (handle m0) target)) msgs).
    cbn [section]. rewrite Hsec. split; [reflexivity|].
    apply filter_In. split; [exact Hin|].
    destruct (Pos.eqb_spec (handle m) target) as [Heq|Hne]; [|reflexivity].
    exfalso. apply Hfree. cbn [map snd In]. left. congruence.
  - unfold removalFires. destruct (removals v) as [|[due target] rest] eqn:E;
      [rewrite E; exact Hfree|].
    destruct (due <=? t); [|rewrite E; exact Hfree].
    cbn [removals]. intros Hin. apply Hfree. cbn [map In]. right. exact Hin.
Qed.

Lemma showError_mounted e v msgs :
  section v = Some msgs ->
  showError e v =
  mkView (currentDate v) (timer v) (taskList v)
         (Some (msgs ++ [mkMessage (nextHandle v) (errorText e)
                                   (lit "error-message")]))
         (removals v) (Pos.succ (nextHandle v)).
Proof. intros Hsec. unfold showError. rewrite Hsec. reflexivity. Qed.

Lemma showError_keeps e v :
  currentDate (showError e v) = currentDate v /\
  timer (showError e v) = timer v /\ taskList (showError e v) = taskList v.
Proof. unfold showError. destruct (section v); repeat split. Qed.

Lemma showSuccess_keeps now fileName v :
  currentDate (showSuccess now fileName v) = currentDate v /\
  timer (showSuccess now fileName v) = timer v /\
  taskList (showSuccess now fileName v) = taskList v.
Proof. unfold showSuccess. destruct (section v); repeat split. Qed.

Section AnyHost.
Context {Hst File : Type} `{Host Hst File}.

(** C9. [createDailyFile] never throws and never touches the cursor, the
    timer or the task list.  When the vault has a file under
    [dateStr + ".md"], the host sees the one [openFile] of that file and
    nothing else, no [create], and if that call returns the view is as
    before.  When that [openFile], or [create], or the [openFile] of the
    new file throws, the view gets one more paragraph of class
    [error-message] whose text ends with the [message] of what was
    thrown; no removal is scheduled for it, so it stays whatever
    removals expire later. *)
Theorem createDailyFile_existing_and_errors (now : Z) (dateStr : jsstring)
    (h : Hst) (v : View) (msgs : list Message) :
  section v = Some msgs ->
  let fileName := dateStr ++ lit ".md" in
  let r := createDailyFile now dateStr (h, v) in
  (currentDate (snd r) = currentDate v /\ timer (snd r) = timer v /\
   taskList (snd r) = taskList v) /\
  (forall existingFile,
     getAbstractFileByPath h fileName = Some existingFile ->
     fst r = fst (openFile h existingFile) /\
     (forall u, snd (openFile h existingFile) = Returns u -> snd r = v) /\
     (forall e, snd (openFile h existingFile) = Throws e ->
                snd r = showError e v)) /\
  (getAbstractFileByPath h fileName = None ->
   (forall e, snd (create h fileName fileContent) = Throws e ->
      r = (fst (create h fileName fileContent), showError e v)) /\
   (forall newFile e,
      snd (create h fileName fileContent) = Returns newFile ->
      snd (openFile (fst (create h fileName fileContent)) newFile) = Throws e ->
      snd r = showError e v)) /\
  (forall e,
     let shown := mkMessage (nextHandle v) (errorText e)
                            (lit "error-message") in
     section (showError e v) = Some (msgs ++ [shown]) /\
     (exists prefix, msgText shown = prefix ++ message e) /\
     removals (showError e v) = removals v /\
     (wellFormed v ->
      forall times, shows shown (removalsFire times (showError e v)))).
Proof.
  intros Hsec fileName r. split; [|split; [|split]].
  - unfold r, createDailyFile. fold fileName.
    destruct (getAbstractFileByPath h fileName) as [f|].
    + destruct (openFile h f) as [h1 [u|e]]; cbn [snd];
        [repeat split|apply showError_keeps].
    + destruct (create h fileName fileContent) as [h1 [f|e]];
        [|cbn [snd]; apply showError_keeps].
      destruct (openFile h1 f) as [h2 [u|e]]; cbn [snd];
        [apply showSuccess_keeps|apply showError_keeps].
  - intros f Hf. unfold r, createDailyFile. fold fileName. rewrite Hf.
    destruct (openFile h f) as [h1 [u|e]]; cbn [fst snd].
    + split; [reflexivity|]. split; [reflexivity|discriminate].
    + split; [reflexivity|]. split; [discriminate|].
      intros e' He. injection He as ->. reflexivity.
  - intros Hnone. unfold r, createDailyFile. fold fileName. rewrite Hnone.
    destruct (create h fileName fileContent) as [h1 [f|e]]; cbn [fst snd].
    + split; [discriminate|]. intros f' e' Hf' He'. injection Hf' as ->.
      destruct (openFile h1 f') as [h2 [u|e]]; cbn [snd] in He' |- *;
        [discriminate He'|]. injection He' as ->. reflexivity.
    + split; [|discriminate]. intros e' He. injection He as ->. reflexivity.
  - intros e shown. rewrite (showError_mounted e v msgs Hsec).
    cbn [section removals]. split; [reflexivity|]. split.
    + exists ([10060%N] ++ lit " Error creating file: "). unfold shown.
      cbn [msgText]. unfold errorText. rewrite app_assoc. reflexivity.
    + split; [reflexivity|]. intros Hwf times. apply shows_after_removals.
      * exists (msgs ++ [shown]). split; [reflexivity|].
        apply in_or_app. right. left. reflexivity.
      * cbn [removals handle]. unfold shown. cbn [handle].
        intros Hin. apply in_map_iff in Hin as ([due target] & Htarget & Hin).
        unfold wellFormed in Hwf. rewrite Forall_forall in Hwf.
        specialize (Hwf _ Hin). cbn [snd] in Hwf, Htarget. subst target.
        exact (Pos.lt_irrefl _ Hwf).
Qed.

End AnyHost.

(** A click on 2 November 2026 with the day's note in the vault opens
    the note and leaves the view as it is; on the vault that refuses to
    create, the view shows the refusal. *)
Lemma createDailyFile_existing_and_errors_witness :
  createDailyFile 0 (lit "2026-11-02") (vaultWithNote, openedView)
  = (mkMemHost (files vaultWithNote) [lit "2026-11-02.md"] None None,
     openedView) /\
  section (snd (createDailyFile 0 (lit "2026-11-02")
                  (readOnlyVault, openedView)))
  = Some [mkMessage 1 ([10060%N] ++
                       lit " Error creating file: EACCES: permission denied")
                    (lit "error-message")].
Proof.
  destruct (createDailyFile_existing_and_errors 0 (lit "2026-11-02")
              vaultWithNote openedView [] eq_refl)
    as (_ & Hexisting & _).
  destruct (Hexisting (lit "2026-11-02.md") eq_refl) as (Hhost & Hview & _).
  destruct (createDailyFile_existing_and_errors 0 (lit "2026-11-02")
              readOnlyVault openedView [] eq_refl)
    as (_ & _ & Hnew & Hshown).
  destruct (Hnew eq_refl) as (Hcreate & _).
  split.
  - rewrite (surjective_pairing (createDailyFile _ _ _)).
    rewrite Hhost, (Hview tt eq_refl). reflexivity.
  - rewrite (Hcreate (mkError (lit "EACCES: permission denied")) eq_refl).
    cbn [snd]. destruct (Hshown (mkError (lit "EACCES: permission denied")))
      as (Hsection & _).
    rewrite Hsection. reflexivity.
Defined.

End ViewFacts.

Module JSTextFacts.
Import JSNum JSString JSText.

Lemma digitsValue_snoc ds d :
  digitsValue (ds ++ [d]) = 10 * digitsValue ds + d.
Proof. unfold digitsValue. rewrite fold_left_app. reflexivity. Qed.

Lemma digitPrefix_digits ds :
  forallb isDigit ds = true -> digitPrefix ds = map digitValue ds.
Proof.
  induction ds as [|c ds IH]; [reflexivity|].
  cbn [forallb digitPrefix map]. intros H. apply andb_prop in H as [Hc Hds].
  rewrite Hc, IH by exact Hds. reflexivity.
Qed.

Lemma isDigit_of_Z d : 0 <= d < 10 -> isDigit (Z.to_N (48 + d)) = true.
Proof.
  intros H. unfold isDigit. apply andb_true_intro.
  split; apply N.leb_le; lia.
Qed.

Lemma digitValue_of_Z d : 0 <= d -> digitValue (Z.to_N (48 + d)) = d.
Proof. intros H. unfold digitValue. rewrite Z2N.id by lia. lia. Qed.

Lemma digitsValue_single d : digitsValue [d] = d.
Proof. unfold digitsValue. cbn [fold_left]. lia. Qed.

(** [digitsFrom] writes the digits of [n], at least one, none but
    digits, and a single one only below 10. *)
Lemma digitsFrom_spec fuel : forall n acc,
  (0 < fuel)%nat -> 0 <= n < 2 ^ Z.of_nat fuel ->
  exists ds,
    digitsFrom fuel n acc = ds ++ acc /\ ds <> [] /\
    forallb isDigit ds = true /\
    digitsValue (map digitValue ds) = n /\
    (n < 10 -> ds = [Z.to_N (48 + n)]) /\
    (10 <= n -> (2 <= length ds)%nat).
Proof.
  induction fuel as [|fuel IH]; intros n acc Hfuel Hn; [lia|].
  cbn [digitsFrom].
  assert (Hd : 0 <= n mod 10 < 10) by (apply Z.mod_pos_bound; lia).
  destruct (Z.ltb_spec n 10) as [Hlt|Hge].
  - exists [Z.to_N (48 + n mod 10)].
    rewrite (Z.mod_small n 10) by lia.
    split; [reflexivity|]. split; [discriminate|].
    split; [cbn [forallb]; rewrite isDigit_of_Z by lia; reflexivity|].
    split; [cbn [map]; rewrite digitValue_of_Z, digitsValue_single; lia|].
    split; [reflexivity|lia].
  - assert (Hpow : 2 ^ Z.of_nat (S fuel) = 2 * 2 ^ Z.of_nat fuel)
      by (rewrite Nat2Z.inj_succ, Z.pow_succ_r; lia).
    assert (Hfuel' : (0 < fuel)%nat).
    { destruct fuel; [|lia]. rewrite Hpow in Hn.
      change (2 ^ Z.of_nat 0) with 1 in Hn. lia. }
    assert (Hq : 0 <= n / 10 < 2 ^ Z.of_nat fuel).
    { split; [apply Z.div_pos; lia|].
      apply Z.div_lt_upper_bound; lia. }
    destruct (IH (n / 10) (Z.to_N (48 + n mod 10) :: acc) Hfuel' Hq)
      as (ds & Heq & Hne & Hdig & Hval & _ & _).
    exists (ds ++ [Z.to_N (48 + n mod 10)]).
    split; [rewrite Heq, <- app_assoc; reflexivity|].
    split; [destruct ds; discriminate|].
    split.
    { rewrite forallb_app, Hdig. cbn [forallb].
      rewrite isDigit_of_Z by lia. reflexivity. }
    split.
    { rewrite map_app. cbn [map].
      rewrite digitsValue_snoc, Hval, digitValue_of_Z by lia.
      pose proof (Z.div_mod n 10 ltac:(lia)). lia. }
    split; [lia|]. intros _. rewrite length_app. cbn [length].
    destruct ds; [congruence|cbn [length]; lia].
Qed.

Lemma digits_of_nonneg n :
  0 <= n ->
  exists ds,
    toStringInt n = ds /\ ds <> [] /\ forallb isDigit ds = true /\
    digitsValue (map digitValue ds) = n /\
    (n < 10 -> ds = [Z.to_N (48 + n)]) /\
    (10 <= n -> (2 <= length ds)%nat).
Proof.
  intros Hn. unfold toStringInt.
  destruct (Z.ltb_spec n 0) as [Hneg|_]; [lia|].
  assert (Hb : 0 <= n < 2 ^ Z.of_nat (S (Z.to_nat (Z.log2 n)))).
  { split; [exact Hn|].
    rewrite Nat2Z.inj_succ, Z2Nat.id by apply Z.log2_nonneg.
    destruct (Z.eq_dec n 0) as [->|Hne]; [reflexivity|].
    apply Z.log2_spec. lia. }
  destruct (digitsFrom_spec (S (Z.to_nat (Z.log2 n))) n []
              (Nat.lt_0_succ _) Hb)
    as (ds & Heq & Hrest).
  exists ds. rewrite Heq, app_nil_r. split; [reflexivity|exact Hrest].
Qed.

Lemma isDigit_cases c :
  isDigit c = true ->
  (c = 48 \/ c = 49 \/ c = 50 \/ c = 51 \/ c = 52 \/ c = 53 \/ c = 54 \/
   c = 55 \/ c = 56 \/ c = 57)%N.
Proof.
  unfold isDigit. intros H. apply andb_prop in H as [H1 H2].
  apply N.leb_le in H1, H2. lia.
Qed.

(** [parseInt] reads a run of digits, signed or not, as its value. *)
Lemma parseInt_digits ds :
  ds <> [] -> forallb isDigit ds = true ->
  parseInt ds = Int (digitsValue (map digitValue ds)) /\
  parseInt (45%N :: ds) = Int (- digitsValue (map digitValue ds)).
Proof.
  intros Hne Hdig. destruct ds as [|c r]; [congruence|].
  pose proof (digitPrefix_digits _ Hdig) as Hpre.
  cbn [forallb] in Hdig. apply andb_prop in Hdig as [Hc _].
  assert (Hval : forall sign,
            match digitPrefix (c :: r) with
            | [] => NaN
            | d :: ds' => Int (sign * digitsValue (d :: ds'))
            end = Int (sign * digitsValue (map digitValue (c :: r)))).
  { intros sign. rewrite Hpre. reflexivity. }
  split.
  - rewrite <- (Z.mul_1_l (digitsValue _)), <- Hval.
    destruct (isDigit_cases c Hc) as [E|[E|[E|[E|[E|[E|[E|[E|[E|E]]]]]]]]];
      subst c; reflexivity.
  - replace (- digitsValue (map digitValue (c :: r)))
      with (-1 * digitsValue (map digitValue (c :: r))) by lia.
    rewrite <- Hval. reflexivity.
Qed.

(** Reading back what [String] wrote gives the integer. *)
Lemma parseInt_toStringInt z : parseInt (toStringInt z) = Int z.
Proof.
  destruct (Z.ltb_spec z 0) as [Hneg|Hpos].
  - destruct (digits_of_nonneg (- z) ltac:(lia)) as (ds & Heq & Hne & Hdig & Hval & _).
    assert (Hs : toStringInt z = 45%N :: ds).
    { unfold toStringInt in Heq |- *.
      destruct (Z.ltb_spec z 0); [|lia].
      destruct (Z.ltb_spec (- z) 0); [lia|]. rewrite Heq. reflexivity. }
    rewrite Hs. destruct (parseInt_digits ds Hne Hdig) as [_ H].
    rewrite H, Hval. f_equal. lia.
  - destruct (digits_of_nonneg z Hpos) as (ds & Heq & Hne & Hdig & Hval & _).
    rewrite Heq. destruct (parseInt_digits ds Hne Hdig) as [H _].
    rewrite H, Hval. reflexivity.
Qed.

Lemma toStringInt_inj a b : toStringInt a = toStringInt b -> a = b.
Proof.
  intros H. apply (f_equal parseInt) in H.
  rewrite !parseInt_toStringInt in H. congruence.
Qed.

(** Two digits for a number below 100, the text itself from 100 on. *)
Lemma padStart2_small n :
  0 <= n < 100 ->
  padStart2 (toStringInt n)
  = [Z.to_N (48 + n / 10); Z.to_N (48 + n mod 10)].
Proof.
  intros Hn. destruct (Z.ltb_spec n 10) as [Hlt|Hge].
  - destruct (digits_of_nonneg n ltac:(lia)) as (ds & Heq & _ & _ & _ & H1 & _).
    rewrite Heq, (H1 Hlt). cbn [padStart2].
    rewrite Z.div_small, Z.mod_small by lia. reflexivity.
  - unfold toStringInt. destruct (Z.ltb_spec n 0); [lia|].
    assert (Hlog : 3 <= Z.log2 n) by (apply Z.log2_le_pow2; cbn; lia).
    destruct (Z.to_nat (Z.log2 n)) as [|f] eqn:E; [lia|].
    cbn [digitsFrom].
    destruct (Z.ltb_spec n 10); [lia|].
    destruct (Z.ltb_spec (n / 10) 10) as [_|Hbig];
      [|assert (n / 10 < 10) by (apply Z.div_lt_upper_bound; lia); lia].
    rewrite (Z.mod_small (n / 10)) by
      (split; [apply Z.div_pos; lia|apply Z.div_lt_upper_bound; lia]).
    reflexivity.
Qed.

Lemma padStart2_value n :
  0 <= n ->
  let s := padStart2 (toStringInt n) in
  (2 <= length s)%nat /\ parseInt s = Int n /\ (n < 100 -> length s = 2%nat).
Proof.
  intros Hn s. unfold s. destruct (Z.ltb_spec n 100) as [Hlt|Hge].
  - rewrite padStart2_small by lia.
    assert (Hq : 0 <= n / 10 < 10)
      by (split; [apply Z.div_pos; lia|apply Z.div_lt_upper_bound; lia]).
    assert (Hr : 0 <= n mod 10 < 10) by (apply Z.mod_pos_bound; lia).
    split; [cbn; lia|]. split; [|reflexivity].
    destruct (parseInt_digits
                [Z.to_N (48 + n / 10); Z.to_N (48 + n mod 10)]
                ltac:(discriminate)) as [H _].
    { cbn [forallb]. rewrite !isDigit_of_Z by lia. reflexivity. }
    rewrite H. f_equal. cbn [map].
    change [digitValue (Z.to_N (48 + n / 10)); digitValue (Z.to_N (48 + n mod 10))]
      with ([digitValue (Z.to_N (48 + n / 10))] ++
            [digitValue (Z.to_N (48 + n mod 10))]).
    rewrite digitsValue_snoc, digitsValue_single, !digitValue_of_Z by lia.
    pose proof (Z.div_mod n 10 ltac:(lia)). lia.
  - destruct (digits_of_nonneg n Hn) as (ds & Heq & _ & _ & _ & _ & H2).
    specialize (H2 ltac:(lia)).
    assert (Hpad : padStart2 (toStringInt n) = toStringInt n).
    { rewrite Heq. destruct ds as [|a [|b r]]; cbn [length] in H2; try lia.
      reflexivity. }
    rewrite Hpad, parseInt_toStringInt, Heq.
    split; [exact H2|]. split; [reflexivity|lia].
Qed.

Lemma pow10_succ k : 10 ^ Z.of_nat (S k) = 10 * 10 ^ Z.of_nat k.
Proof. rewrite Nat2Z.inj_succ, Z.pow_succ_r by lia. reflexivity. Qed.

Lemma pow10_pos k : 1 <= 10 ^ Z.of_nat k.
Proof.
  induction k as [|k IH]; [cbn; lia|]. rewrite pow10_succ. lia.
Qed.

(** A number from [10^k] up to [10^(k+1)] is written with [k + 1]
    digits, and so is 0 with one. *)
Lemma digitsFrom_length fuel : forall n acc k,
  (0 < fuel)%nat -> 0 <= n < 2 ^ Z.of_nat fuel ->
  n < 10 * 10 ^ Z.of_nat k -> k = 0%nat \/ 10 ^ Z.of_nat k <= n ->
  length (digitsFrom fuel n acc) = (S k + length acc)%nat.
Proof.
  induction fuel as [|fuel IH]; intros n acc k Hfuel Hn Hup Hlow; [lia|].
  cbn [digitsFrom]. destruct (Z.ltb_spec n 10) as [Hlt|Hge].
  - assert (k = 0%nat).
    { destruct Hlow as [|Hlow]; [assumption|]. destruct k; [reflexivity|].
      rewrite pow10_succ in Hlow. pose proof (pow10_pos k). lia. }
    subst k. reflexivity.
  - destruct k as [|k]; [cbn in Hup; lia|]. rewrite pow10_succ in Hup.
    assert (Hpow : 2 ^ Z.of_nat (S fuel) = 2 * 2 ^ Z.of_nat fuel)
      by (rewrite Nat2Z.inj_succ, Z.pow_succ_r; lia).
    assert (Hfuel' : (0 < fuel)%nat).
    { destruct fuel; [|lia]. rewrite Hpow in Hn.
      change (2 ^ Z.of_nat 0) with 1 in Hn. lia. }
    rewrite (IH (n / 10) _ k Hfuel').
    + cbn [length]. lia.
    + split; [apply Z.div_pos; lia|apply Z.div_lt_upper_bound; lia].
    + apply Z.div_lt_upper_bound; lia.
    + destruct k as [|k]; [left; reflexivity|right].
      destruct Hlow as [Hk|Hlow]; [discriminate Hk|].
      rewrite pow10_succ in Hlow. apply Z.div_le_lower_bound; lia.
Qed.

Lemma toStringInt_length n k :
  0 <= n -> n < 10 * 10 ^ Z.of_nat k -> k = 0%nat \/ 10 ^ Z.of_nat k <= n ->
  length (toStringInt n) = S k.
Proof.
  intros Hn Hup Hlow. unfold toStringInt.
  destruct (Z.ltb_spec n 0) as [Hneg|_]; [lia|].
  rewrite (digitsFrom_length _ n [] k); [cbn [length]; lia|apply Nat.lt_0_succ| |
                                         assumption|assumption].
  split; [exact Hn|].
  rewrite Nat2Z.inj_succ, Z2Nat.id by apply Z.log2_nonneg.
  destruct (Z.eq_dec n 0) as [->|Hne]; [reflexivity|].
  apply Z.log2_spec. lia.
Qed.

Lemma digitValue_range c : isDigit c = true -> 0 <= digitValue c <= 9.
Proof.
  unfold isDigit, digitValue. intros H. apply andb_prop in H as [H1 H2].
  apply N.leb_le in H1, H2. lia.
Qed.

(** From 100 on a number takes three characters or more. *)
Lemma toStringInt_three n : 100 <= n -> (3 <= length (toStringInt n))%nat.
Proof.
  intros Hn.
  destruct (digits_of_nonneg n ltac:(lia)) as (ds & Heq & _ & Hdig & Hval & _).
  rewrite Heq. destruct ds as [|a [|b [|c r]]]; cbn [length]; try lia;
    exfalso; cbn [forallb map] in Hdig, Hval.
  - unfold digitsValue in Hval. cbn [fold_left] in Hval. lia.
  - apply andb_prop in Hdig as [Ha _]. apply digitValue_range in Ha.
    rewrite digitsValue_single in Hval. lia.
  - apply andb_prop in Hdig as [Ha Hb]. apply andb_prop in Hb as [Hb _].
    apply digitValue_range in Ha, Hb.
    change [digitValue a; digitValue b]
      with ([digitValue a] ++ [digitValue b]) in Hval.
    rewrite digitsValue_snoc, digitsValue_single in Hval. lia.
Qed.

Lemma twoDigits_inj a b :
  0 <= a < 100 -> 0 <= b < 100 ->
  padStart2 (toStringInt a) = padStart2 (toStringInt b) -> a = b.
Proof.
  intros Ha Hb H. apply (f_equal parseInt) in H.
  destruct (padStart2_value a ltac:(lia)) as (_ & Pa & _).
  destruct (padStart2_value b ltac:(lia)) as (_ & Pb & _).
  rewrite Pa, Pb in H. congruence.
Qed.

End JSTextFacts.

Module CalendarTextFacts.
Import JSNum JSDate JSDateFacts JSString JSText JSTextFacts.
Import Calendar CalendarFacts CalendarText.













Lemma In_dayRange n d : In d (dayRange n) <-> 1 <= d <= n.
Proof.
  unfold dayRange. rewrite in_map_iff. split.
  - intros (k & <- & Hk). apply in_seq in Hk. lia.
  - intros H. exists (Z.to_nat d). split; [lia|]. apply in_seq. lia.
Qed.

Lemma filter_day_upto (D : Z) (k : nat) :
  filter (fun d => d =? D) (map Z.of_nat (seq 1 k))
  = if (1 <=? D) && (D <=? Z.of_nat k) then [D] else [].
Proof.
  induction k as [|k IH].
  - cbn [seq map filter].
    destruct (Z.leb_spec 1 D), (Z.leb_spec D (Z.of_nat 0)); cbn [andb];
      try reflexivity; lia.
  - rewrite seq_S, map_app, filter_app, IH. cbn [map filter Nat.add].
    destruct (Z.eqb_spec (Z.of_nat (S k)) D) as [E|E];
      destruct (Z.leb_spec 1 D), (Z.leb_spec D (Z.of_nat k)),
               (Z.leb_spec D (Z.of_nat (S k)));
      cbn [andb app]; try reflexivity; try lia.
    rewrite E. reflexivity.
Qed.

Lemma filter_nothing (A : Type) (l : list A) :
  filter (fun _ => false) l = [].
Proof. induction l as [|x l IH]; [reflexivity|exact IH]. Qed.

Lemma filter_repeat_Empty k :
  filter markedToday (repeat Empty k) = [].
Proof. induction k as [|k IH]; [reflexivity|exact IH]. Qed.

(** X4. Of the cells of a rendered month, the one of day [d] is marked
    "today" exactly when the month shown is today's month of today's
    year and [d] is today's day of the month: one cell is marked when
    today lies in the month shown, none otherwise. *)
Theorem today_marked_once (today : Date) (year month : Z) :
  0 <= month <= 11 ->
  let g := monthGrid today year month in
  let shown := (getMonth today =? month) &&
               (getFullYear today =? resolvedYear year) in
  (forall day date mark,
     In (DayCell day date mark) (cells g) ->
     mark = shown && (day =? getDate today)) /\
  todayCount g = (if shown then 1 else 0)%nat.
Proof.
  intros Hm g shown. assert (Hm' : 0 <= month < 12) by lia.
  pose proof (cells_monthGrid today year month Hm') as Hcells. fold g in Hcells.
  set (n := daysInMonth (leapYear (resolvedYear year)) month) in *.
  assert (Hmark : forall d, 1 <= d <= n ->
            isDateToday today (newDate year month d)
            = shown && (d =? getDate today)).
  { intros d Hd.
    destruct (newDate_civil year month d Hm' Hd) as (Hy & Hmo & Hda & _).
    unfold isDateToday, shown. rewrite Hy, Hmo, Hda.
    rewrite (Z.eqb_sym month), (Z.eqb_sym (resolvedYear year)).
    destruct (d =? getDate today), (getMonth today =? month),
             (getFullYear today =? resolvedYear year); reflexivity. }
  split.
  - intros day date mark Hin. rewrite Hcells in Hin.
    apply in_app_or in Hin as [Hin|Hin].
    + apply repeat_spec in Hin. discriminate Hin.
    + apply in_map_iff in Hin as (d & Heq & Hd). apply In_dayRange in Hd.
      injection Heq as <- _ <-. apply Hmark. exact Hd.
  - unfold todayCount. rewrite Hcells, filter_app, filter_repeat_Empty.
    cbn [app].
    assert (Hfilter :
      filter markedToday
        (map (fun day => DayCell day (newDate year month day)
                           (isDateToday today (newDate year month day)))
             (dayRange n))
      = map (fun day => DayCell day (newDate year month day)
                          (isDateToday today (newDate year month day)))
            (filter (fun d => shown && (d =? getDate today)) (dayRange n))).
    { clear Hcells.
      assert (Hall : forall d, In d (dayRange n) -> 1 <= d <= n)
        by (intros d; apply In_dayRange).
      revert Hall. induction (dayRange n) as [|d ds IH]; intros Hall;
        [reflexivity|].
      cbn [map filter markedToday].
      rewrite Hmark by (apply Hall; left; reflexivity).
      specialize (IH (fun d' Hd' => Hall d' (or_intror Hd'))).
      assert (Hd : isDateToday today (newDate year month d)
                   = shown && (d =? getDate today))
        by (apply Hmark, Hall; left; reflexivity).
      destruct (shown && (d =? getDate today)) eqn:E; cbn [map];
        rewrite IH, ?Hd; reflexivity. }
    rewrite Hfilter, length_map.
    destruct shown eqn:Es.
    + cbn [andb]. unfold dayRange. rewrite filter_day_upto.
      apply andb_prop in Es as [Em Ey].
      apply Z.eqb_eq in Em, Ey.
      destruct (civil_decompose (tv today)) as (_ & Hd & _).
      fold (getDate today) (getFullYear today) (getMonth today) in Hd.
      rewrite Ey, Em in Hd. fold n in Hd.
      destruct (Z.leb_spec 1 (getDate today)); [|lia].
      destruct (Z.leb_spec (getDate today) (Z.of_nat (Z.to_nat n)));
        [reflexivity|lia].
    + cbn [andb]. rewrite filter_nothing. reflexivity.
Qed.

(** November 2026 rendered on 2 November 2026. *)
Lemma today_marked_once_witness :
  todayCount (monthGrid (newDate 2026 10 2) 2026 10) = 1%nat.
Proof.
  destruct (today_marked_once (newDate 2026 10 2) 2026 10 ltac:(lia))
    as [_ Hcount].
  exact Hcount.
Defined.

Lemma app_inj_suffix (A : Type) (l1 l2 s1 s2 : list A) :
  length s1 = length s2 -> l1 ++ s1 = l2 ++ s2 -> l1 = l2 /\ s1 = s2.
Proof.
  intros Hlen H.
  assert (Hl : length l1 = length l2).
  { apply (f_equal (@length A)) in H. rewrite !length_app in H. lia. }
  revert l2 Hl H. induction l1 as [|x l1 IH]; intros [|y l2] Hl H;
    try discriminate Hl.
  - split; [reflexivity|exact H].
  - cbn [app] in H. injection H as -> H. cbn [length] in Hl.
    destruct (IH l2 ltac:(lia) H) as [-> ->]. split; reflexivity.
Qed.

(** The text of a date: the year, then month and day in two
    characters each. *)
Lemma formatDateString_fields (date : Date) :
  exists mm dd,
    formatDateString date
    = toStringInt (getFullYear date) ++ [45%N] ++ mm ++ [45%N] ++ dd /\
    mm = padStart2 (toStringInt (getMonth date + 1)) /\
    dd = padStart2 (toStringInt (getDate date)) /\
    length mm = 2%nat /\ length dd = 2%nat /\
    parseInt mm = Int (getMonth date + 1) /\
    parseInt dd = Int (getDate date).
Proof.
  destruct (civil_decompose (tv date)) as (Hm & Hd & _).
  pose proof (daysInMonth_range (leapYear (YearFromTime (tv date)))
                                (MonthFromTime (tv date))) as Hr.
  fold (getMonth date) in Hm. fold (getDate date) in Hd.
  destruct (padStart2_value (getMonth date + 1) ltac:(lia)) as (_ & Pm & Lm).
  destruct (padStart2_value (getDate date) ltac:(lia)) as (_ & Pd & Ld).
  exists (padStart2 (toStringInt (getMonth date + 1))),
         (padStart2 (toStringInt (getDate date))).
  split; [reflexivity|]. split; [reflexivity|]. split; [reflexivity|].
  split; [apply Lm; lia|]. split; [apply Ld; lia|]. split; assumption.
Qed.

(** X5. [formatDateString] writes the year, a dash, the month in two
    digits, a dash and the day in two digits; month and day read back
    with [parseInt] are the month (counted from 1) and the day.  Two
    dates get the same text exactly when they are the same day of the
    same month of the same year, and the text has the ten characters of
    YYYY-MM-DD for the years 1000 to 9999. *)
Theorem formatDateString_names_the_day :
  (forall date, exists mm dd,
     formatDateString date
     = toStringInt (getFullYear date) ++ [45%N] ++ mm ++ [45%N] ++ dd /\
     length mm = 2%nat /\ length dd = 2%nat /\
     parseInt (toStringInt (getFullYear date)) = Int (getFullYear date) /\
     parseInt mm = Int (getMonth date + 1) /\
     parseInt dd = Int (getDate date)) /\
  (forall a b,
     formatDateString a = formatDateString b <->
     getFullYear a = getFullYear b /\ getMonth a = getMonth b /\
     getDate a = getDate b) /\
  (forall date, 1000 <= getFullYear date <= 9999 ->
     length (formatDateString date) = 10%nat).
Proof.
  split; [|split].
  - intros date.
    destruct (formatDateString_fields date)
      as (mm & dd & Heq & _ & _ & Lm & Ld & Pm & Pd).
    exists mm, dd. rewrite parseInt_toStringInt. repeat split; assumption.
  - intros a b. split.
    + intros H.
      destruct (formatDateString_fields a)
        as (ma & da & Ha & Ema & Eda & Lma & Lda & Pma & Pda).
      destruct (formatDateString_fields b)
        as (mb & db & Hb & Emb & Edb & Lmb & Ldb & Pmb & Pdb).
      rewrite Ha, Hb in H.
      apply app_inj_suffix in H as [Hy H];
        [|cbn [length app]; rewrite !length_app; cbn [length]; lia].
      apply toStringInt_inj in Hy.
      cbn [app] in H. injection H as H.
      apply app_inj_suffix in H as [Hmm H]; [|cbn [length]; lia].
      injection H as Hdd.
      rewrite Hmm in Pma. rewrite Hdd in Pda.
      split; [exact Hy|]. split; [|congruence].
      assert (getMonth a + 1 = getMonth b + 1) by congruence. lia.
    + intros (Hy & Hm & Hd). unfold formatDateString.
      rewrite Hy, Hm, Hd. reflexivity.
  - intros date Hy.
    destruct (formatDateString_fields date)
      as (mm & dd & Heq & _ & _ & Lm & Ld & _ & _).
    rewrite Heq, !length_app, Lm, Ld.
    rewrite (toStringInt_length (getFullYear date) 3) by (cbn; lia).
    reflexivity.
Qed.

(** The cell of 2 November 2026. *)
Lemma formatDateString_names_the_day_witness :
  length (formatDateString (newDate 2026 10 2)) = 10%nat.
Proof.
  destruct formatDateString_names_the_day as (_ & _ & Hlen).
  apply Hlen. vm_compute. split; discriminate.
Defined.

End CalendarTextFacts.

Module TimerViewFacts.
Import JSNum JSNumFacts JSString JSText JSTextFacts Timer TimerFacts TimerView.

Lemma frameDiscipline_step now e w :
  frameDiscipline w -> frameDiscipline (handle now e w).
Proof.
  destruct w as [[fw fb fl fs frun fe fa] [fr tos nx]].
  unfold frameDiscipline. cbn [fields loop timerRunning timerAnimationFrame
                               frames].
  destruct frun.
  - intros (id & -> & ->).
    destruct e as [| |swork sbrk| |]; cbn [handle].
    + unfold toggleTimer, pauseTimer, cancelAnimationFrame. cbn.
      rewrite Pos.eqb_refl. split; reflexivity.
    + unfold resetTimer, pauseTimer, cancelAnimationFrame. cbn.
      rewrite Pos.eqb_refl. split; reflexivity.
    + unfold saveTimerSettings. cbn. exists id. split; reflexivity.
    + cbn [loop frames]. unfold tick, popFrame.
      cbn [fields loop timerRunning negb frames timeouts nextId tl].
      destruct (le _ _).
      * unfold completeTimer, pauseTimer. cbn. split; reflexivity.
      * cbn. exists nx. split; reflexivity.
    + cbn [loop timeouts]. destruct tos as [|due rest];
        [exists id; split; reflexivity|].
      destruct (due <=? now); [|exists id; split; reflexivity].
      unfold startTimer, popTimeout. cbn. exists id. split; reflexivity.
  - intros (-> & ->).
    destruct e as [| |swork sbrk| |]; cbn [handle].
    + unfold toggleTimer, startTimer. cbn. exists nx. split; reflexivity.
    + unfold resetTimer, pauseTimer. cbn. split; reflexivity.
    + unfold saveTimerSettings. cbn. split; reflexivity.
    + cbn. split; reflexivity.
    + cbn [loop timeouts]. destruct tos as [|due rest];
        [split; reflexivity|].
      destruct (due <=? now); [|split; reflexivity].
      unfold startTimer, popTimeout. cbn. exists nx. split; reflexivity.
Qed.

Lemma frameDiscipline_run tr : forall w,
  frameDiscipline w -> frameDiscipline (run tr w).
Proof.
  induction tr as [|[now e] tr IH]; intros w Hw; [exact Hw|].
  cbn [run]. apply IH, frameDiscipline_step, Hw.
Qed.

Lemma frameDiscipline_init : frameDiscipline init.
Proof. split; reflexivity. Qed.

(** X6. Whatever is clicked, saved or run, and whenever: a running
    timer has exactly one animation frame requested, the one it
    recorded, and a stopped timer has none.  No second countdown loop
    ever runs beside the first. *)
Theorem one_frame_request_at_a_time (tr : list (Z * Event)) :
  let w := run tr init in
  (timerRunning (fields w) = true ->
   exists id, timerAnimationFrame (fields w) = Some id /\
              frames (loop w) = [id]) /\
  (timerRunning (fields w) = false ->
   timerAnimationFrame (fields w) = None /\ frames (loop w) = []).
Proof.
  intros w. pose proof (frameDiscipline_run tr init frameDiscipline_init) as H.
  fold w in H. unfold frameDiscipline in H.
  destruct (timerRunning (fields w)); split; intros E;
    try discriminate E; exact H.
Qed.

(** A start, a frame, the Start/Pause button twice in a row, a frame. *)
Lemma one_frame_request_at_a_time_witness :
  let w := run [(0, ClickStartPause); (16, Frame); (20, ClickStartPause);
                (30, ClickStartPause); (46, Frame)] init in
  timerRunning (fields w) = true /\ length (frames (loop w)) = 1%nat.
Proof.
  cbv zeta. split; [reflexivity|].
  destruct (one_frame_request_at_a_time
              [(0, ClickStartPause); (16, Frame); (20, ClickStartPause);
               (30, ClickStartPause); (46, Frame)]) as [Hrun _].
  destruct (Hrun eq_refl) as (id & _ & Hfr). rewrite Hfr. reflexivity.
Defined.







Lemma secondsLeft_antitone endTime t1 t2 :
  t1 <= t2 -> secondsLeft endTime t2 <= secondsLeft endTime t1.
Proof.
  intros H. rewrite !secondsLeft_div.
  assert ((endTime - t2 + 500) / 1000 <= (endTime - t1 + 500) / 1000)
    by (apply Z.div_le_mono; lia).
  lia.
Qed.

Lemma timeLeft_after_frames endTime w ts t :
  ticking endTime w ->
  Forall (fun t' => 0 < secondsLeft endTime t') (ts ++ [t]) ->
  ticking endTime (run (framesAt (ts ++ [t])) w) /\
  timeLeft (fields (run (framesAt (ts ++ [t])) w))
  = Int (secondsLeft endTime t).
Proof.
  intros Htick Hall.
  destruct (frames_keep_ticking endTime (ts ++ [t]) w Htick Hall)
    as (Ht & Hl & _).
  split; [exact Ht|]. rewrite Hl, map_app. cbn [map]. apply last_last.
Qed.

(** X8. While the timer counts down and the clock does not go back, the
    remaining seconds never go up from one frame to a later one, and
    after a start they never exceed what was left at the start. *)
Theorem countdown_never_rises :
  (forall endTime w ts1 t1 ts2 t2,
     ticking endTime w ->
     Forall (fun t => 0 < secondsLeft endTime t) (ts1 ++ t1 :: ts2 ++ [t2]) ->
     t1 <= t2 ->
     exists l1 l2,
       timeLeft (fields (run (framesAt (ts1 ++ [t1])) w)) = Int l1 /\
       timeLeft (fields (run (framesAt (ts1 ++ t1 :: ts2 ++ [t2])) w))
       = Int l2 /\
       l2 <= l1) /\
  (forall now w left ts t,
     timerRunning (fields w) = false -> timeLeft (fields w) = Int left ->
     Forall (fun t' => 0 < secondsLeft (now + left * 1000) t') (ts ++ [t]) ->
     now <= t ->
     exists l,
       timeLeft (fields (run (framesAt (ts ++ [t])) (startTimer now w)))
       = Int l /\ 0 < l <= left).
Proof.
  split.
  - intros endTime w ts1 t1 ts2 t2 Htick Hall Hle.
    exists (secondsLeft endTime t1), (secondsLeft endTime t2).
    assert (Hall1 : Forall (fun t => 0 < secondsLeft endTime t) (ts1 ++ [t1])).
    { apply Forall_app in Hall as [H1 H2]. apply Forall_app. split; [exact H1|].
      inversion H2; subst. repeat constructor. assumption. }
    split; [apply (timeLeft_after_frames endTime w ts1 t1 Htick Hall1)|].
    split; [|apply secondsLeft_antitone; exact Hle].
    replace (ts1 ++ t1 :: ts2 ++ [t2]) with ((ts1 ++ t1 :: ts2) ++ [t2]) in *
      by (rewrite <- app_assoc; reflexivity).
    apply (timeLeft_after_frames endTime w _ t2 Htick Hall).
  - intros now w left ts t Hrun Hleft Hall Hle.
    assert (Htick : ticking (now + left * 1000) (startTimer now w)).
    { rewrite startTimer_stopped by exact Hrun. rewrite Hleft.
      unfold ticking. wsimpl. repeat split.
      destruct (frames (loop w)); discriminate. }
    exists (secondsLeft (now + left * 1000) t).
    split; [apply (timeLeft_after_frames _ _ ts t Htick Hall)|].
    apply Forall_app in Hall as [_ Hall].
    inversion Hall as [|? ? Hpos _]; subst.
    split; [exact Hpos|].
    rewrite secondsLeft_div in Hpos |- *.
    Z.to_euclidean_division_equations. lia.
Qed.

(** The fresh timer started at 0: frames at 16 ms, 1 s and 2.5 s. *)
Lemma countdown_never_rises_witness :
  exists l,
    timeLeft (fields (run (framesAt ([16; 1000] ++ [2500]))
                          (startTimer 0 init))) = Int l /\
    0 < l <= 2400.
Proof.
  destruct countdown_never_rises as [_ Hstart].
  apply (Hstart 0 init 2400 [16; 1000] 2500); try reflexivity.
  - repeat constructor.
  - lia.
Defined.

(** X9. A frame of a running timer completes the phase exactly when
    less than 500 ms are left to the end time: the phase ends with the
    first frame later than half a second before its end. *)
Theorem frame_completes_within_half_second (endTime now : Z) (w : World) :
  ticking endTime w ->
  let w' := handle now Frame w in
  (timerRunning (fields w') = false <-> endTime - now < 500) /\
  (isWorkSession (fields w') = negb (isWorkSession (fields w))
   <-> endTime - now < 500) /\
  (500 <= endTime - now ->
   timeLeft (fields w') = Int (secondsLeft endTime now) /\
   1 <= secondsLeft endTime now).
Proof.
  intros Htick w'. unfold w'. rewrite (frame_ticking now w endTime Htick).
  assert (Hz : secondsLeft endTime now <= 0 <-> endTime - now < 500).
  { rewrite secondsLeft_div. Z.to_euclidean_division_equations. lia. }
  destruct (Z.leb_spec (secondsLeft endTime now) 0) as [Hle|Hgt].
  - destruct (completeTimer_running now (popFrame w)) as (H1 & H2 & _).
    cbv zeta in H1, H2. cbn [popFrame fields] in H2.
    rewrite H1, H2. split; [tauto|]. split; [tauto|]. lia.
  - cbn [fields timerRunning isWorkSession timeLeft].
    split; [split; [discriminate|lia]|]. split.
    + split; [destruct (isWorkSession (fields w)); discriminate|lia].
    + intros _. split; [reflexivity|lia].
Qed.

(** The fresh timer started at 0 ends its 40 minutes at 2399501 ms. *)
Lemma frame_completes_within_half_second_witness :
  timerRunning (fields (handle 2399501 Frame (startTimer 0 init))) = false.
Proof.
  assert (Htick : ticking 2400000 (startTimer 0 init))
    by (repeat split; discriminate).
  destruct (frame_completes_within_half_second 2400000 2399501 _ Htick)
    as ([_ Hdone] & _).
  apply Hdone. reflexivity.
Defined.

Lemma frames_on_nothing ts : forall w,
  frames (loop w) = [] -> run (framesAt ts) w = w.
Proof.
  induction ts as [|t ts IH]; intros w Hfr; [reflexivity|].
  cbn [framesAt map run handle]. rewrite Hfr. apply IH. exact Hfr.
Qed.

Lemma pauseTimer_disciplined w :
  frameDiscipline w -> timerRunning (fields w) = true ->
  pauseTimer w =
  mkWorld (mkFields (workTime (fields w)) (breakTime (fields w))
                    (timeLeft (fields w)) (isWorkSession (fields w)) false
                    (timerEndTime (fields w)) None)
          (mkLoop [] (timeouts (loop w)) (nextId (loop w))).
Proof.
  unfold frameDiscipline. intros Hd Hrun. rewrite Hrun in Hd.
  destruct Hd as (id & Haf & Hfr).
  unfold pauseTimer, cancelAnimationFrame. rewrite Hrun, Haf, Hfr.
  cbn. rewrite Pos.eqb_refl. reflexivity.
Qed.

(** X10. Pause, in whatever state the timer has come to be running:
    the timer stops with the remaining seconds, the phase, the durations
    and the pending restarts it had; no frame request is left, so no
    frame changes anything until the timer is started again; and a
    second pause does nothing. *)
Theorem pause_freezes_the_countdown (tr : list (Z * Event)) (now : Z) :
  let w := run tr init in
  timerRunning (fields w) = true ->
  let w' := handle now ClickStartPause w in
  w' = pauseTimer w /\
  timerRunning (fields w') = false /\
  timeLeft (fields w') = timeLeft (fields w) /\
  isWorkSession (fields w') = isWorkSession (fields w) /\
  workTime (fields w') = workTime (fields w) /\
  breakTime (fields w') = breakTime (fields w) /\
  timeouts (loop w') = timeouts (loop w) /\
  frames (loop w') = [] /\
  (forall ts, run (framesAt ts) w' = w') /\
  pauseTimer w' = w'.
Proof.
  intros w Hrun w'.
  pose proof (frameDiscipline_run tr init frameDiscipline_init) as Hd.
  fold w in Hd.
  assert (Hw' : w' = pauseTimer w)
    by (unfold w'; cbn [handle]; unfold toggleTimer; rewrite Hrun; reflexivity).
  split; [exact Hw'|]. rewrite Hw', (pauseTimer_disciplined w Hd Hrun).
  cbn [fields loop timerRunning timeLeft isWorkSession workTime breakTime
       timeouts frames].
  do 7 (split; [reflexivity|]). split.
  - intros ts. apply frames_on_nothing. reflexivity.
  - reflexivity.
Qed.

(** The fresh timer started, one frame, then the button again. *)
Lemma pause_freezes_the_countdown_witness :
  let w' := run [(0, ClickStartPause); (1000, Frame); (1200, ClickStartPause)]
                init in
  timeLeft (fields w') = Int 2399 /\ run (framesAt [1216; 1232]) w' = w'.
Proof.
  destruct (pause_freezes_the_countdown
              [(0, ClickStartPause); (1000, Frame)] 1200 eq_refl)
    as (_ & _ & Hleft & _ & _ & _ & _ & _ & Hframes & _).
  split; [exact Hleft|apply Hframes].
Defined.

(** X11. Pause and resume.  A running timer takes a frame at [t] that
    leaves [r > 0] seconds, is paused and later started again at [t2]:
    it then runs towards [t2 + r * 1000].  The time spent paused is not
    counted, and the stretch it has left differs from the stretch that
    was left at the frame by no more than half a second, the rounding
    of the frame. *)
Theorem resume_counts_from_the_shown_seconds (tr : list (Z * Event))
    (endTime t t1 t2 : Z) :
  let w := run tr init in
  timerRunning (fields w) = true ->
  timerEndTime (fields w) = Some (Int endTime) ->
  0 < secondsLeft endTime t ->
  let r := secondsLeft endTime t in
  let w3 := run [(t, Frame); (t1, ClickStartPause); (t2, ClickStartPause)] w in
  timerRunning (fields w3) = true /\
  timeLeft (fields w3) = Int r /\
  timerEndTime (fields w3) = Some (Int (t2 + r * 1000)) /\
  (exists id, frames (loop w3) = [id]) /\
  endTime - t - 500 < r * 1000 <= endTime - t + 500.
Proof.
  intros w Hrun Hend Hpos r w3.
  pose proof (frameDiscipline_run tr init frameDiscipline_init) as Hd.
  fold w in Hd.
  assert (Htick : ticking endTime w).
  { unfold ticking. split; [exact Hrun|]. split; [exact Hend|].
    unfold frameDiscipline in Hd. rewrite Hrun in Hd.
    destruct Hd as (id & _ & ->). discriminate. }
  assert (Hd1 := frameDiscipline_step t Frame w Hd).
  assert (H1 : handle t Frame w =
    mkWorld (mkFields (workTime (fields w)) (breakTime (fields w))
                      (Int r) (isWorkSession (fields w)) true
                      (Some (Int endTime)) (Some (nextId (loop w))))
            (mkLoop (tl (frames (loop w)) ++ [nextId (loop w)])
                    (timeouts (loop w)) (Pos.succ (nextId (loop w))))).
  { rewrite (frame_ticking t w endTime Htick).
    destruct (Z.leb_spec (secondsLeft endTime t) 0); [lia|reflexivity]. }
  unfold w3. cbn [run]. set (w1 := handle t Frame w) in *.
  assert (H2 : handle t1 ClickStartPause w1 = pauseTimer w1)
    by (cbn [handle]; unfold toggleTimer; rewrite H1; reflexivity).
  rewrite H2, (pauseTimer_disciplined w1 Hd1) by (rewrite H1; reflexivity).
  rewrite H1. cbn [handle]. unfold toggleTimer.
  cbn [fields loop timerRunning workTime breakTime timeLeft isWorkSession
       timerEndTime timeouts nextId].
  rewrite startTimer_stopped by reflexivity.
  cbn [fields loop timerRunning workTime breakTime timeLeft isWorkSession
       timerEndTime timeouts nextId frames mul add app].
  split; [reflexivity|]. split; [reflexivity|]. split; [reflexivity|].
  split; [eexists; reflexivity|].
  unfold r. rewrite secondsLeft_div in Hpos |- *.
  Z.to_euclidean_division_equations. lia.
Qed.

(** The fresh timer started at 0, a frame at 1.4 s showing 2399 s, a
    pause at 1.5 s and a resume at 10 s. *)
Lemma resume_counts_from_the_shown_seconds_witness :
  timerEndTime
    (fields (run [(1400, Frame); (1500, ClickStartPause);
                  (10000, ClickStartPause)]
                 (run [(0, ClickStartPause)] init)))
  = Some (Int (10000 + 2399 * 1000)).
Proof.
  destruct (resume_counts_from_the_shown_seconds
              [(0, ClickStartPause)] 2400000 1400 1500 10000
              eq_refl eq_refl eq_refl)
    as (_ & _ & Hend & _).
  exact Hend.
Defined.

Lemma resetTimer_disciplined w :
  frameDiscipline w ->
  resetTimer w =
  mkWorld (mkFields (workTime (fields w)) (breakTime (fields w))
                    (workTime (fields w)) true false
                    (timerEndTime (fields w)) None)
          (mkLoop [] (timeouts (loop w)) (nextId (loop w))).
Proof.
  intros Hd. unfold resetTimer.
  destruct (timerRunning (fields w)) eqn:Hrun.
  - rewrite (pauseTimer_disciplined w Hd Hrun). reflexivity.
  - unfold frameDiscipline in Hd. rewrite Hrun in Hd. destruct Hd as [Haf Hfr].
    unfold pauseTimer. rewrite Hrun. cbn [negb setFields].
    destruct w as [[fw fb fl fs frun fe fa] [fr tos nx]].
    cbn in Hrun, Haf, Hfr |- *. subst. reflexivity.
Qed.

(** X12. Reset, in whatever state the timer has come to be: the timer
    is stopped in the work phase with the full work duration remaining
    and no frame requested; the durations stay, and so do the pending
    automatic restarts; a second reset changes nothing. *)
Theorem reset_returns_to_a_full_work_phase (tr : list (Z * Event)) :
  let w := run tr init in
  let w' := resetTimer w in
  timerRunning (fields w') = false /\
  isWorkSession (fields w') = true /\
  timeLeft (fields w') = workTime (fields w) /\
  workTime (fields w') = workTime (fields w) /\
  breakTime (fields w') = breakTime (fields w) /\
  timerAnimationFrame (fields w') = None /\
  frames (loop w') = [] /\
  timeouts (loop w') = timeouts (loop w) /\
  resetTimer w' = w'.
Proof.
  intros w w'.
  pose proof (frameDiscipline_run tr init frameDiscipline_init) as Hd.
  fold w in Hd. unfold w'. rewrite (resetTimer_disciplined w Hd).
  do 8 (split; [reflexivity|]). reflexivity.
Qed.

(** X13. An automatic restart that is pending is cancelled neither by
    Reset nor by closing the view.  On a stopped timer whose oldest
    restart is due, the timeout that follows a reset starts the work
    phase with its full duration, and the timeout that follows
    [onClose] starts the timer as well and requests a frame. *)
Theorem pending_restart_survives_reset_and_close (tr : list (Z * Event))
    (due t : Z) (rest : list Z) :
  let w := run tr init in
  timerRunning (fields w) = false ->
  timeouts (loop w) = due :: rest -> due <= t ->
  (let w' := handle t Timeout (resetTimer w) in
   timerRunning (fields w') = true /\ isWorkSession (fields w') = true /\
   timeLeft (fields w') = workTime (fields w) /\
   timerEndTime (fields w')
   = Some (add (Int t) (mul (workTime (fields w)) (Int 1000))) /\
   timeouts (loop w') = rest) /\
  (let w' := handle t Timeout (TimerView.onClose w) in
   timerRunning (fields w') = true /\
   timeLeft (fields w') = timeLeft (fields w) /\
   (exists id, frames (loop w') = [id]) /\
   timeouts (loop w') = rest).
Proof.
  intros w Hrun Hto Hdue.
  pose proof (frameDiscipline_run tr init frameDiscipline_init) as Hd.
  fold w in Hd.
  assert (Hleb : (due <=? t) = true) by (apply Z.leb_le; exact Hdue).
  split.
  - rewrite (resetTimer_disciplined w Hd). cbn [handle loop timeouts].
    rewrite Hto, Hleb. rewrite startTimer_stopped by reflexivity.
    cbn [popTimeout fields loop timerRunning isWorkSession timeLeft
         timerEndTime timeouts tl].
    repeat split.
  - unfold frameDiscipline in Hd. rewrite Hrun in Hd. destruct Hd as [Haf Hfr].
    unfold TimerView.onClose. rewrite Haf. cbn [handle]. rewrite Hto, Hleb.
    rewrite startTimer_stopped by exact Hrun.
    cbn [popTimeout fields loop timerRunning timeLeft frames timeouts tl].
    rewrite Hfr, Hto. cbn [tl app]. repeat split. eexists. reflexivity.
Qed.

(** One-minute phases: the work phase completes at 60 s, Reset is
    clicked at 61 s, the restart comes at 62 s all the same. *)
Lemma pending_restart_survives_reset_and_close_witness :
  let w := run [(0, ClickStartPause); (60000, Frame)] oneMinute in
  timerRunning (fields (handle 62000 Timeout (resetTimer w))) = true.
Proof.
  destruct (pending_restart_survives_reset_and_close
              [(0, ClickSave (lit "1") (lit "1")); (0, ClickStartPause);
               (60000, Frame)] 62000 62000 [] eq_refl eq_refl ltac:(lia))
    as [(Hrun & _) _].
  exact Hrun.
Defined.

(** X14. Closing the view while the timer runs cancels its frame
    request and nothing else: the timer still counts as running, but no
    frame is left to run, so the remaining seconds stay where they are
    and the phase is never completed by a frame. *)
Theorem onClose_halts_a_running_countdown (tr : list (Z * Event)) :
  let w := run tr init in
  timerRunning (fields w) = true ->
  let w' := TimerView.onClose w in
  fields w' = fields w /\
  frames (loop w') = [] /\
  timeouts (loop w') = timeouts (loop w) /\
  (forall ts, run (framesAt ts) w' = w').
Proof.
  intros w Hrun w'.
  pose proof (frameDiscipline_run tr init frameDiscipline_init) as Hd.
  fold w in Hd. unfold frameDiscipline in Hd. rewrite Hrun in Hd.
  destruct Hd as (id & Haf & Hfr).
  assert (Hfr' : frames (loop w') = []).
  { unfold w', TimerView.onClose, cancelAnimationFrame. rewrite Haf, Hfr.
    cbn. rewrite Pos.eqb_refl. reflexivity. }
  split; [unfold w', TimerView.onClose; rewrite Haf; reflexivity|].
  split; [exact Hfr'|].
  split; [unfold w', TimerView.onClose; rewrite Haf; reflexivity|].
  intros ts. apply frames_on_nothing. exact Hfr'.
Qed.

(** The fresh timer started, one frame, the view closed. *)
Lemma onClose_halts_a_running_countdown_witness :
  let w' := TimerView.onClose (run [(0, ClickStartPause); (1000, Frame)] init) in
  timeLeft (fields (run (framesAt [2000; 3000]) w')) = Int 2399.
Proof.
  destruct (onClose_halts_a_running_countdown
              [(0, ClickStartPause); (1000, Frame)] eq_refl)
    as (_ & _ & _ & Hframes).
  cbv zeta. rewrite Hframes. reflexivity.
Defined.

(** X15. The clock face.  For a number of seconds from 0 up to the
    largest safe integer [updateTimerDisplay] writes the minutes, a
    colon and the seconds in two digits; read back with [parseInt] the
    two give the minutes and the seconds below 60 that make up the
    remaining time.  The text has the five characters of MM:SS below 100
    minutes and more from there on (180 minutes can be set); for [NaN]
    it is NaN:NaN. *)
Theorem timeText_reads_back (f : Fields) :
  (forall n, timeLeft f = Int n -> 0 <= n <= MAX_SAFE_INTEGER ->
     exists mm ss,
       timeText f = mm ++ [58%N] ++ ss /\
       length ss = 2%nat /\
       parseInt mm = Int (n / 60) /\ parseInt ss = Int (n mod 60) /\
       0 <= n mod 60 < 60 /\ n / 60 * 60 + n mod 60 = n /\
       (n < 6000 -> length (timeText f) = 5%nat) /\
       (6000 <= n -> (6 <= length (timeText f))%nat)) /\
  (timeLeft f = NaN -> timeText f = lit "NaN:NaN").
Proof.
  split.
  - intros n Hleft Hn. unfold timeText. rewrite Hleft.
    cbn [floorDiv60 rem60 toString].
    rewrite Z.rem_mod_nonneg by lia.
    assert (Hq : 0 <= n / 60) by (apply Z.div_pos; lia).
    assert (Hr : 0 <= n mod 60 < 60) by (apply Z.mod_pos_bound; lia).
    destruct (padStart2_value (n / 60) Hq) as (Lq2 & Pq & Lq).
    destruct (padStart2_value (n mod 60) ltac:(lia)) as (_ & Pr & Lr).
    exists (padStart2 (toStringInt (n / 60))),
           (padStart2 (toStringInt (n mod 60))).
    split; [reflexivity|]. split; [apply Lr; lia|].
    split; [exact Pq|]. split; [exact Pr|]. split; [exact Hr|].
    split; [pose proof (Z.div_mod n 60 ltac:(lia)); lia|].
    rewrite !length_app. cbn [length]. rewrite Lr by lia. split.
    + intros Hlt. rewrite Lq; [reflexivity|].
      apply Z.div_lt_upper_bound; lia.
    + intros Hge.
      assert (H100 : 100 <= n / 60) by (apply Z.div_le_lower_bound; lia).
      pose proof (toStringInt_three _ H100) as H3.
      assert (Hpad : padStart2 (toStringInt (n / 60)) = toStringInt (n / 60)).
      { destruct (toStringInt (n / 60)) as [|a [|b r]]; cbn [length] in H3;
          try lia. reflexivity. }
      rewrite Hpad. lia.
  - intros Hleft. unfold timeText. rewrite Hleft. reflexivity.
Qed.

(** The fresh timer shows 40:00. *)
Lemma timeText_reads_back_witness :
  length (timeText (fields init)) = 5%nat.
Proof.
  destruct (timeText_reads_back (fields init)) as [Hshape _].
  destruct (Hshape 2400 eq_refl ltac:(unfold MAX_SAFE_INTEGER; lia))
    as (mm & ss & _ & _ & _ & _ & _ & _ & Hfive & _).
  apply Hfive. lia.
Defined.

End TimerViewFacts.

Module TaskRowsFacts.
Import JSString JSStringFacts Tasks TasksFacts TaskRows.

Lemma toggleFirst_absent taskId ts :
  ~ In taskId (map id ts) -> toggleFirst taskId ts = ts.
Proof.
  induction ts as [|t ts IH]; intros Hnotin; [reflexivity|].
  cbn [map In] in Hnotin. cbn [toggleFirst].
  destruct (Z.eqb_spec (id t) taskId) as [E|E]; [tauto|].
  f_equal. apply IH. tauto.
Qed.

Lemma toggleFirst_first taskId pre t post :
  id t = taskId -> ~ In taskId (map id pre) ->
  toggleFirst taskId (pre ++ t :: post) = pre ++ flipped t :: post.
Proof.
  intros Ht. induction pre as [|p pre IH]; intros Hnotin.
  - cbn [app toggleFirst].
    destruct (Z.eqb_spec (id t) taskId); [reflexivity|congruence].
  - cbn [map In] in Hnotin. cbn [app toggleFirst].
    destruct (Z.eqb_spec (id p) taskId) as [E|E]; [tauto|].
    f_equal. apply IH. tauto.
Qed.

Lemma toggleFirst_keeps taskId ts :
  map id (toggleFirst taskId ts) = map id ts /\
  map text (toggleFirst taskId ts) = map text ts /\
  length (toggleFirst taskId ts) = length ts.
Proof.
  induction ts as [|t ts (IH1 & IH2 & IH3)]; [repeat split|].
  cbn [toggleFirst]. destruct (id t =? taskId); cbn [map length id text].
  - repeat split.
  - rewrite IH1, IH2, IH3. repeat split.
Qed.

Lemma toggleFirst_twice taskId ts :
  toggleFirst taskId (toggleFirst taskId ts) = ts.
Proof.
  induction ts as [|t ts IH]; [reflexivity|].
  cbn [toggleFirst]. destruct (Z.eqb_spec (id t) taskId) as [E|E].
  - cbn [toggleFirst id].
    destruct (Z.eqb_spec (id t) taskId); [|congruence].
    cbn [id text completed]. rewrite negb_involutive. destruct t; reflexivity.
  - cbn [toggleFirst]. destruct (Z.eqb_spec (id t) taskId); [tauto|].
    f_equal. exact IH.
Qed.

(** X16. [toggleTask] flips the check mark of the first task with the
    id and of no other; ids, texts, order and length of the list stay;
    an id no task has changes nothing; and toggling the same id twice
    gives the list back. *)
Theorem toggleTask_flips_the_first_match (taskId : Z) (st : State) :
  map id (tasks (toggleTask taskId st)) = map id (tasks st) /\
  map text (tasks (toggleTask taskId st)) = map text (tasks st) /\
  input (toggleTask taskId st) = input st /\
  (~ In taskId (map id (tasks st)) -> toggleTask taskId st = st) /\
  (forall pre t post,
     tasks st = pre ++ t :: post -> id t = taskId ->
     ~ In taskId (map id pre) ->
     tasks (toggleTask taskId st) = pre ++ flipped t :: post) /\
  toggleTask taskId (toggleTask taskId st) = st.
Proof.
  destruct st as [ts inp]. unfold toggleTask. cbn [tasks input].
  destruct (toggleFirst_keeps taskId ts) as (H1 & H2 & _).
  split; [exact H1|]. split; [exact H2|]. split; [reflexivity|]. split.
  - intros Hnotin. rewrite toggleFirst_absent by exact Hnotin. reflexivity.
  - split.
    + intros pre t post -> Ht Hnotin. apply toggleFirst_first; assumption.
    + rewrite toggleFirst_twice. reflexivity.
Qed.

(** Two tasks; the second one is ticked. *)
Lemma toggleTask_flips_the_first_match_witness :
  let st := add (lit "b") 2 (add (lit "a") 1 init) in
  tasks (toggleTask 2 st)
  = [mkTask 1 (lit "a") false; mkTask 2 (lit "b") true].
Proof.
  cbv zeta.
  destruct (toggleTask_flips_the_first_match 2
              (add (lit "b") 2 (add (lit "a") 1 init)))
    as (_ & _ & _ & _ & Hflip & _).
  apply (Hflip [mkTask 1 (lit "a") false] (mkTask 2 (lit "b") false) []).
  - reflexivity.
  - reflexivity.
  - cbn. intros [H|[]]. discriminate H.
Defined.

Lemma NoDup_split_ids (pre post : list Task) (t : Task) :
  NoDup (map id (pre ++ t :: post)) ->
  ~ In (id t) (map id pre) /\ ~ In (id t) (map id post).
Proof.
  rewrite map_app. cbn [map]. intros H.
  apply NoDup_remove_2 in H. split; intros Hin; apply H, in_or_app; tauto.
Qed.

Lemma rowAt_task i st t :
  nth_error (tasks st) i = Some t ->
  rowAt i st = Some (mkRow (completed t) (text t) (id t)).
Proof.
  unfold rowAt, renderTasks. intros H.
  destruct (tasks st) as [|u us] eqn:E; [destruct i; discriminate H|].
  rewrite nth_error_map, H. reflexivity.
Qed.

Lemma rowAt_none i st :
  nth_error (tasks st) i = None -> rowAt i st = None.
Proof.
  unfold rowAt, renderTasks. intros H.
  destruct (tasks st) as [|u us] eqn:E; [reflexivity|].
  rewrite nth_error_map, H. reflexivity.
Qed.


(** The two buttons of row [i] in a list of pairwise distinct ids. *)
Lemma rows_with_distinct_ids (st : State) (i : nat) :
  NoDup (map id (tasks st)) ->
  forall t, nth_error (tasks st) i = Some t ->
    tasks (checkboxChange i st)
    = firstn i (tasks st) ++ flipped t :: skipn (S i) (tasks st) /\
    tasks (deleteClick i st)
    = firstn i (tasks st) ++ skipn (S i) (tasks st).
Proof.
  intros Hnd t Hnth. pose proof (rowAt_task i st t Hnth) as Hrow.
  destruct (nth_error_split _ _ Hnth) as (pre & post & Heq & Hlen).
  assert (Hfirst : firstn i (tasks st) = pre).
  { rewrite Heq, <- Hlen, firstn_app, Nat.sub_diag, firstn_all.
    cbn [firstn]. apply app_nil_r. }
  assert (Hskip : skipn (S i) (tasks st) = post).
  { rewrite Heq, <- Hlen.
    change (pre ++ t :: post) with (pre ++ [t] ++ post).
    rewrite app_assoc, skipn_app.
    rewrite length_app, Nat.add_comm. cbn [length Nat.add].
    rewrite Nat.sub_diag, skipn_all2 by (rewrite length_app; cbn; lia).
    reflexivity. }
  rewrite Heq in Hnd. destruct (NoDup_split_ids pre post t Hnd) as [Hpre Hpost].
  unfold checkboxChange, deleteClick. rewrite Hrow. cbn [rowTaskId].
  rewrite Hfirst, Hskip. split.
  - unfold toggleTask. cbn [tasks]. rewrite Heq.
    apply toggleFirst_first; [reflexivity|exact Hpre].
  - unfold deleteTask. cbn [tasks]. rewrite Heq, filter_app. cbn [filter].
    rewrite Z.eqb_refl. cbn [negb].
    destruct (filter_id_absent (id t) pre Hpre) as [_ ->].
    destruct (filter_id_absent (id t) post Hpost) as [_ ->].
    reflexivity.
Qed.

(** X17. In a list whose ids are pairwise distinct, the check box of
    row [i] flips the task at position [i] and the delete button of row
    [i] removes the task at position [i]; all other tasks stay as and
    where they are.  A row that does not exist does nothing. *)
Theorem row_buttons_act_on_their_row (st : State) (i : nat) :
  NoDup (map id (tasks st)) ->
  (forall t, nth_error (tasks st) i = Some t ->
     rowAt i st = Some (mkRow (completed t) (text t) (id t)) /\
     tasks (checkboxChange i st)
     = firstn i (tasks st) ++ flipped t :: skipn (S i) (tasks st) /\
     tasks (deleteClick i st)
     = firstn i (tasks st) ++ skipn (S i) (tasks st)) /\
  (nth_error (tasks st) i = None ->
   checkboxChange i st = st /\ deleteClick i st = st).
Proof.
  intros Hnd. split.
  - intros t Hnth. split; [exact (rowAt_task i st t Hnth)|].
    exact (rows_with_distinct_ids st i Hnd t Hnth).
  - intros Hnone. unfold checkboxChange, deleteClick.
    rewrite (rowAt_none i st Hnone). split; reflexivity.
Qed.

(** Three tasks; the delete button of the middle row. *)
Lemma row_buttons_act_on_their_row_witness :
  let st := add (lit "c") 3 (add (lit "b") 2 (add (lit "a") 1 init)) in
  tasks (deleteClick 1 st)
  = [mkTask 1 (lit "a") false; mkTask 3 (lit "c") false].
Proof.
  cbv zeta.
  destruct (row_buttons_act_on_their_row
              (add (lit "c") 3 (add (lit "b") 2 (add (lit "a") 1 init))) 1)
    as [Hrow _].
  - cbn. repeat constructor; cbn; intuition discriminate.
  - destruct (Hrow (mkTask 2 (lit "b") false) eq_refl) as (_ & _ & Hdel).
    exact Hdel.
Defined.








(** X19. A task that was added under an id no other task has is taken
    out again by [deleteTask] with that id, and the list is the list
    from before the addition. *)
Theorem add_then_delete_restores (s : jsstring) (now : Z) (st : State) :
  trim s <> [] -> ~ In now (map id (tasks st)) ->
  tasks (add s now st) = tasks st ++ [mkTask now (trim s) false] /\
  tasks (deleteTask now (add s now st)) = tasks st.
Proof.
  intros Hs Hfresh. unfold add, addTask, typeText. cbn [input tasks].
  destruct (trim s) as [|c r] eqn:E; [congruence|]. cbn [falsy tasks].
  split; [reflexivity|].
  unfold deleteTask. cbn [tasks]. rewrite filter_app. cbn [filter id].
  rewrite Z.eqb_refl. cbn [negb].
  destruct (filter_id_absent now (tasks st) Hfresh) as [_ ->].
  apply app_nil_r.
Qed.

(** Added to the empty list and deleted again. *)
Lemma add_then_delete_restores_witness :
  tasks (deleteTask 7 (add (lit "buy milk") 7 init)) = [].
Proof.
  destruct (add_then_delete_restores (lit "buy milk") 7 init) as [_ H].
  - discriminate.
  - intros [].
  - exact H.
Defined.

End TaskRowsFacts.

Module DayClickFacts.
Import JSNum JSDate JSDateFacts JSString JSText JSTextFacts.
Import Calendar CalendarFacts CalendarText CalendarTextFacts.
Import View ViewFacts DayClick.

Lemma filter_other_handles (msgs : list Message) (target : positive) :
  Forall (fun m => (handle m < target)%positive) msgs ->
  filter (fun m => negb (Pos.eqb (handle m) target)) msgs = msgs.
Proof.
  induction msgs as [|m msgs IH]; intros Hall; [reflexivity|].
  inversion Hall as [|? ? Hm Hrest]; subst. cbn [filter].
  destruct (Pos.eqb_spec (handle m) target) as [E|_].
  - rewrite E in Hm. exfalso. exact (Pos.lt_irrefl _ Hm).
  - cbn [negb]. f_equal. exact (IH Hrest).
Qed.

Section AnyHost.
Context {Hst File : Type} `{Host Hst File}.

(** X20. A day whose file does not exist yet, on a host that creates
    and opens it: [createDailyFile] has the host create the file with
    the three-header template and open it, and adds one paragraph of
    class [success-message] naming the file, with its removal due 3000
    ms later.  Cursor, timer and tasks stay.  With no older removal
    pending, the paragraph is in the page until that time and is gone,
    alone, once the removal has run. *)
Theorem createDailyFile_new_file (now : Z) (dateStr : jsstring)
    (h h1 h2 : Hst) (f : File) (v : View) (msgs : list Message) :
  section v = Some msgs ->
  let fileName := dateStr ++ lit ".md" in
  getAbstractFileByPath h fileName = None ->
  create h fileName fileContent = (h1, Returns f) ->
  openFile h1 f = (h2, Returns tt) ->
  let r := createDailyFile now dateStr (h, v) in
  let shown := mkMessage (nextHandle v) (successText fileName)
                         (lit "success-message") in
  fst r = h2 /\
  section (snd r) = Some (msgs ++ [shown]) /\
  removals (snd r) = removals v ++ [(now + 3000, nextHandle v)] /\
  currentDate (snd r) = currentDate v /\ timer (snd r) = timer v /\
  taskList (snd r) = taskList v /\
  (removals v = [] -> knownHandles v ->
   (forall t, t < now + 3000 -> removalFires t (snd r) = snd r) /\
   (forall t, now + 3000 <= t ->
      section (removalFires t (snd r)) = Some msgs /\
      removals (removalFires t (snd r)) = [])).
Proof.
  intros Hsec fileName Hnone Hcreate Hopen r shown.
  assert (Hr : r = (h2, showSuccess now fileName v)).
  { unfold r, createDailyFile. fold fileName.
    rewrite Hnone, Hcreate, Hopen. reflexivity. }
  rewrite Hr. cbn [fst snd]. unfold showSuccess. rewrite Hsec.
  cbn [section removals currentDate timer taskList].
  do 6 (split; [reflexivity|]).
  intros Hnoolder Hknown. rewrite Hnoolder. cbn [app].
  unfold removalFires. cbn [removals]. split.
  - intros t Ht. destruct (Z.leb_spec (now + 3000) t); [lia|reflexivity].
  - intros t Ht. destruct (Z.leb_spec (now + 3000) t); [|lia].
    cbn [section removals option_map]. split; [|reflexivity].
    rewrite filter_app. cbn [filter handle]. rewrite Pos.eqb_refl.
    cbn [negb]. unfold knownHandles in Hknown. rewrite Hsec in Hknown.
    rewrite (filter_other_handles msgs (nextHandle v) Hknown).
    rewrite app_nil_r. reflexivity.
Qed.

(** X21. Without a [.dtp-section] in the page [createDailyFile] leaves
    no trace in the view, whatever the host does: neither the success
    nor the failure is shown (the failure is only logged), while the
    calls on the host are the same as with a section. *)
Theorem createDailyFile_without_section (now : Z) (dateStr : jsstring)
    (h : Hst) (v : View) (msgs : list Message) :
  section v = None ->
  snd (createDailyFile now dateStr (h, v)) = v /\
  fst (createDailyFile now dateStr (h, v))
  = fst (createDailyFile now dateStr
           (h, mkView (currentDate v) (timer v) (taskList v) (Some msgs)
                      (removals v) (nextHandle v))).
Proof.
  intros Hsec. unfold createDailyFile, showError, showSuccess.
  rewrite Hsec. cbn [section].
  destruct (getAbstractFileByPath h (dateStr ++ lit ".md")) as [g|].
  - destruct (openFile h g) as [h1 [u|e]]; split; reflexivity.
  - destruct (create h (dateStr ++ lit ".md") fileContent) as [h1 [g|e]];
      [|split; reflexivity].
    destruct (openFile h1 g) as [h2 [u|e]]; split; reflexivity.
Qed.

End AnyHost.

(** The note of 3 November 2026 is created in the vault that holds the
    note of the day before; the message is gone after three seconds. *)
Lemma createDailyFile_new_file_witness :
  let r := createDailyFile 0 (lit "2026-11-03") (vaultWithNote, openedView) in
  files (fst r)
  = [(lit "2026-11-02.md", lit "# notes");
     (lit "2026-11-03.md", fileContent)] /\
  section (removalFires 3000 (snd r)) = Some [].
Proof.
  cbv zeta.
  assert (Hnone : getAbstractFileByPath vaultWithNote
                    (lit "2026-11-03" ++ lit ".md") = None)
    by (vm_compute; reflexivity).
  destruct (createDailyFile_new_file 0 (lit "2026-11-03") vaultWithNote
              (mkMemHost (files vaultWithNote ++
                          [(lit "2026-11-03.md", fileContent)]) [] None None)
              (mkMemHost (files vaultWithNote ++
                          [(lit "2026-11-03.md", fileContent)])
                         [lit "2026-11-03.md"] None None)
              (lit "2026-11-03.md") openedView []
              eq_refl Hnone eq_refl eq_refl)
    as (Hhost & _ & _ & _ & _ & _ & Hgone).
  split; [rewrite Hhost; reflexivity|].
  destruct (Hgone eq_refl (Forall_nil _)) as [_ Hafter].
  destruct (Hafter 3000 ltac:(lia)) as [Hsection _]. exact Hsection.
Defined.

(** A view that is not in the page, on the vault that refuses. *)
Lemma createDailyFile_without_section_witness :
  snd (createDailyFile 0 (lit "2026-11-03")
         (readOnlyVault,
          mkView (newDate 2026 10 2) Timer.init Tasks.init None [] 1))
  = mkView (newDate 2026 10 2) Timer.init Tasks.init None [] 1.
Proof.
  destruct (createDailyFile_without_section 0 (lit "2026-11-03")
              readOnlyVault
              (mkView (newDate 2026 10 2) Timer.init Tasks.init None [] 1)
              [] eq_refl)
    as [Hview _].
  exact Hview.
Defined.

(** The text a day cell of the rendered month carries. *)
Lemma dataDate_of_day today year month day date mark :
  0 <= month < 12 ->
  In (DayCell day date mark) (cells (monthGrid today year month)) ->
  1 <= day <= 31 /\
  date = newDate year month day /\
  formatDateString date
  = toStringInt (resolvedYear year) ++ [45%N] ++
    padStart2 (toStringInt (month + 1)) ++ [45%N] ++
    padStart2 (toStringInt day).
Proof.
  intros Hm Hin. rewrite (cells_monthGrid today year month Hm) in Hin.
  apply in_app_or in Hin as [Hin|Hin];
    [apply repeat_spec in Hin; discriminate Hin|].
  apply in_map_iff in Hin as (d & Heq & Hd). apply In_dayRange in Hd.
  injection Heq as -> <- _.
  pose proof (daysInMonth_range (leapYear (resolvedYear year)) month) as Hr.
  destruct (newDate_civil year month day Hm Hd) as (Hy & Hmo & Hda & _).
  split; [lia|]. split; [reflexivity|].
  unfold formatDateString. rewrite Hy, Hmo, Hda. reflexivity.
Qed.

Section AnyHostClick.
Context {Hst File : Type} `{Host Hst File}.

(** X22. In a rendered month, the cell of day [d] asks
    [createDailyFile] for the text made of the year shown by the
    [Date] of the cell, the month and [d], month and day in two digits;
    an empty cell asks for nothing; and two cells of the grid that ask
    for the same text are the same cell, so every day has a file name
    of its own. *)
Theorem day_cells_name_their_files (today : Date) (year month : Z) :
  0 <= month <= 11 ->
  let g := monthGrid today year month in
  (forall day date mark now (hv : Hst * View),
     In (DayCell day date mark) (cells g) ->
     dayCellClick now (DayCell day date mark) hv
     = createDailyFile now
         (toStringInt (resolvedYear year) ++ [45%N] ++
          padStart2 (toStringInt (month + 1)) ++ [45%N] ++
          padStart2 (toStringInt day)) hv) /\
  (forall now (hv : Hst * View), dayCellClick now Empty hv = hv) /\
  (forall c1 c2 s,
     In c1 (cells g) -> In c2 (cells g) ->
     dataDate c1 = Some s -> dataDate c2 = Some s -> c1 = c2).
Proof.
  intros Hm g. assert (Hm' : 0 <= month < 12) by lia.
  split; [|split].
  - intros day date mark now hv Hin.
    destruct (dataDate_of_day today year month day date mark Hm' Hin)
      as (_ & _ & Htext).
    unfold dayCellClick. cbn [dataDate]. rewrite Htext. reflexivity.
  - reflexivity.
  - intros c1 c2 s Hin1 Hin2 H1 H2.
    destruct c1 as [|d1 date1 mark1]; [discriminate H1|].
    destruct c2 as [|d2 date2 mark2]; [discriminate H2|].
    destruct (dataDate_of_day today year month d1 date1 mark1 Hm' Hin1)
      as (Hd1 & E1 & T1).
    destruct (dataDate_of_day today year month d2 date2 mark2 Hm' Hin2)
      as (Hd2 & E2 & T2).
    cbn [dataDate] in H1, H2. rewrite T1 in H1. rewrite T2 in H2.
    rewrite <- H2 in H1. injection H1 as H1.
    apply app_inv_head in H1. cbn [app] in H1. injection H1 as H1.
    apply app_inv_head in H1. injection H1 as H1.
    assert (Hday : d1 = d2) by (apply twoDigits_inj; [lia|lia|exact H1]).
    subst d2 date1 date2.
    unfold g in Hin1, Hin2. rewrite (cells_monthGrid today year month Hm') in Hin1, Hin2.
    apply in_app_or in Hin1 as [Hin1|Hin1];
      [apply repeat_spec in Hin1; discriminate Hin1|].
    apply in_app_or in Hin2 as [Hin2|Hin2];
      [apply repeat_spec in Hin2; discriminate Hin2|].
    apply in_map_iff in Hin1 as (a & Ha & _).
    apply in_map_iff in Hin2 as (b & Hb & _).
    injection Ha as -> _ <-. injection Hb as -> _ <-. reflexivity.
Qed.

End AnyHostClick.

(** The cell of 2 November 2026 on the vault that holds that day's
    note: the note is opened. *)
Lemma day_cells_name_their_files_witness :
  let today := newDate 2026 10 2 in
  opened (fst (dayCellClick 0 (DayCell 2 today true)
                            (vaultWithNote, openedView)))
  = [lit "2026-11-02.md"].
Proof.
  cbv zeta.
  destruct (day_cells_name_their_files (Hst := MemHost)
              (newDate 2026 10 2) 2026 10 ltac:(lia))
    as (Hclick & _ & _).
  rewrite (Hclick 2 (newDate 2026 10 2) true 0 (vaultWithNote, openedView)).
  - vm_compute. reflexivity.
  - vm_compute. do 7 right. left. reflexivity.
Defined.

End DayClickFacts.

Module SettingsPanelFacts.
Import JSNum JSString JSText JSTextFacts Timer TimerFacts TimerView.
Import SettingsPanel.

Lemma safeMinutes_of_field s :
  safeField s = true -> safeMinutes (mul (parseInt s) (Int 60)) = true.
Proof.
  unfold safeField. destruct (parseInt s) as [m|]; [|reflexivity].
  intros H. apply Z.leb_le in H. cbn [mul safeMinutes].
  apply andb_true_intro. split.
  - apply Z.eqb_eq, Z.mod_mul. lia.
  - apply Z.leb_le. lia.
Qed.

Lemma safeMinutes_step now e w :
  match e with
  | ClickSave work brk => safeField work = true /\ safeField brk = true
  | _ => True
  end ->
  safeMinutes (workTime (fields w)) = true /\
  safeMinutes (breakTime (fields w)) = true ->
  safeMinutes (workTime (fields (handle now e w))) = true /\
  safeMinutes (breakTime (fields (handle now e w))) = true.
Proof.
  intros He Hw.
  destruct w as [[fw fb fl fs frun fe fa] [fr tos nx]].
  cbn [fields workTime breakTime] in Hw.
  destruct e as [| |swork sbrk| |]; cbn [handle].
  - unfold toggleTimer, pauseTimer, startTimer. cbn.
    destruct frun; [destruct fa|]; exact Hw.
  - unfold resetTimer, pauseTimer. cbn. destruct frun; [destruct fa|]; exact Hw.
  - unfold saveTimerSettings. cbn [setFields fields workTime breakTime].
    destruct He as [Hwork Hbrk].
    split; apply safeMinutes_of_field; assumption.
  - cbn [loop frames]. destruct fr as [|i rest]; [exact Hw|].
    unfold tick, popFrame. cbn [fields loop timerRunning].
    destruct frun; cbn [negb]; [|exact Hw].
    destruct (le _ _).
    + unfold completeTimer, pauseTimer. cbn. destruct fa; exact Hw.
    + cbn. exact Hw.
  - cbn [loop timeouts]. destruct tos as [|due rest]; [exact Hw|].
    destruct (due <=? now); [|exact Hw].
    unfold startTimer, popTimeout. cbn. destruct frun; exact Hw.
Qed.

(** Whatever happens, safe Saves keep the durations safe whole
    minutes. *)
Lemma safeMinutes_run tr : forall w,
  savesSafe tr = true ->
  safeMinutes (workTime (fields w)) = true /\
  safeMinutes (breakTime (fields w)) = true ->
  safeMinutes (workTime (fields (run tr w))) = true /\
  safeMinutes (breakTime (fields (run tr w))) = true.
Proof.
  induction tr as [|[now e] tr IH]; intros w Hsafe Hw; [exact Hw|].
  cbn [run]. apply IH.
  - destruct e; cbn [savesSafe] in Hsafe; try exact Hsafe.
    apply andb_prop in Hsafe. apply Hsafe.
  - apply safeMinutes_step; [|exact Hw].
    destruct e; try exact I. cbn [savesSafe] in Hsafe.
    apply andb_prop in Hsafe as [Hsafe _].
    apply andb_prop in Hsafe. exact Hsafe.
Qed.

Section OtherText.
Variable otherText : Z -> jsstring.

(** The minutes a field is given read back as the duration. *)
Lemma minutesValue_reads_back (duration : num) :
  safeMinutes duration = true ->
  mul (parseInt (minutesValue otherText duration)) (Int 60) = duration.
Proof.
  destruct duration as [z|]; [|reflexivity].
  intros Hz. unfold minutesValue. rewrite Hz.
  cbn [safeMinutes] in Hz. apply andb_prop in Hz as [Hz _].
  apply Z.eqb_eq in Hz. rewrite parseInt_toStringInt.
  cbn [mul]. f_equal. pose proof (Z.div_mod z 60 ltac:(lia)). lia.
Qed.

(** X23. As long as the minutes that are saved make safe numbers of
    seconds, both durations are whole minutes or [NaN] in every state
    the timer reaches.  Opening the settings panel then fills the two
    fields with the durations in minutes, whatever they held before;
    and Save clicked on the fields as filled, on a stopped timer, keeps
    both durations, sets the remaining time to the duration of the
    current phase, writes the two values into the info line and hides
    the panel. *)
Theorem open_and_save_keeps_settings (tr : list (Z * Event)) (p : Panel) :
  savesSafe tr = true ->
  let w := run tr init in
  (safeMinutes (workTime (fields w)) = true /\
   safeMinutes (breakTime (fields w)) = true) /\
  (visible p = false -> timerRunning (fields w) = false ->
   let opened := toggleTimerSettings otherText w p in
   let saved := saveClick otherText (w, opened) in
   visible opened = true /\
   workValue opened = minutesValue otherText (workTime (fields w)) /\
   breakValue opened = minutesValue otherText (breakTime (fields w)) /\
   workTime (fields (fst saved)) = workTime (fields w) /\
   breakTime (fields (fst saved)) = breakTime (fields w) /\
   timeLeft (fields (fst saved)) = phaseTime (fields w) /\
   isWorkSession (fields (fst saved)) = isWorkSession (fields w) /\
   loop (fst saved) = loop w /\
   visible (snd saved) = false /\
   infoText (snd saved)
   = lit "Work: " ++ workValue opened ++ lit "min | Break: " ++
     breakValue opened ++ lit "min").
Proof.
  intros Hsafe w.
  assert (Hwhole : safeMinutes (workTime (fields w)) = true /\
                   safeMinutes (breakTime (fields w)) = true).
  { apply safeMinutes_run; [exact Hsafe|]. split; reflexivity. }
  split; [exact Hwhole|]. destruct Hwhole as [Hw Hb].
  intros Hhidden Hstopped opened saved.
  unfold saved, saveClick, opened, toggleTimerSettings. rewrite Hhidden.
  cbn [updateTimerInfo visible workValue breakValue infoText fst snd].
  unfold saveTimerSettings. rewrite Hstopped.
  rewrite (minutesValue_reads_back _ Hw), (minutesValue_reads_back _ Hb).
  cbn [negb setFields fields loop workTime breakTime timeLeft isWorkSession].
  unfold phaseTime. repeat split.
Qed.

End OtherText.

(** 25 and 10 minutes are saved; the panel is opened and Save is
    clicked again. *)
Lemma open_and_save_keeps_settings_witness :
  let w := run [(0, ClickSave (lit "25") (lit "10"))] init in
  let saved := saveClick (fun _ => [])
                 (w, toggleTimerSettings (fun _ => []) w initPanel) in
  workTime (fields (fst saved)) = Int 1500 /\
  infoText (snd saved) = lit "Work: 25min | Break: 10min".
Proof.
  destruct (open_and_save_keeps_settings (fun _ => [])
              [(0, ClickSave (lit "25") (lit "10"))] initPanel eq_refl)
    as [_ Hsave].
  destruct (Hsave eq_refl eq_refl)
    as (_ & _ & _ & Hwork & _ & _ & _ & _ & _ & Hinfo).
  split; [exact Hwork | exact Hinfo].
Defined.

End SettingsPanelFacts.
